(** * RestaurantBot: the Streamlit chat front-end of [streamlit_app.py]

    The program is one Streamlit script.  Streamlit re-executes the whole
    script, top to bottom, at every interaction of a browser session; what
    survives between two executions is the per-session [st.session_state]
    and, per server process, the [st.cache_resource] store and the ambient
    [Settings] object.  Everything else (the hosted model, the index library,
    the file system, the widgets) is an external collaborator.

    The embedding follows that shape:
    - Python control flow (return / raise / [st.stop()]) is a [result];
    - the script is written in a state-and-exception monad [M] over a
      [world] (process state, session state, and the log of the calls the
      script made to its collaborators during the current execution);
    - the collaborators are the fields of an environment [env], one value of
      which describes how they answer during one execution of the script;
    - a server is a process state plus a finite map of sessions, and serves a
      list of (session, environment) requests by executing the script. *)

From Stdlib Require Import Ascii String List Bool Arith Lia.
From stdpp Require Import base strings list gmap pretty.

(** ** Python control flow *)

(** A raised Python object: its class name, whether it is an instance of
    [Exception] (as opposed to a bare [BaseException] such as
    [KeyboardInterrupt] or [SystemExit]), and [str(e)]. *)
Record pyexc := PyExc {
  exc_class : string;
  isinstance_Exception : bool;
  exc_str : string
}.

Definition NameError (name : string) : pyexc :=
  PyExc "NameError" true ("name '" +:+ name +:+ "' is not defined").

Definition KeyError (key : string) : pyexc :=
  PyExc "KeyError" true ("'" +:+ key +:+ "'").

Definition AttributeError (attr : string) : pyexc :=
  PyExc "AttributeError" true
        ("st.session_state has no attribute '" +:+ attr +:+ "'").

(** What Streamlit raises when [st.secrets] is read and no secrets file
    exists; it derives from [FileNotFoundError]. *)
Definition StreamlitSecretNotFoundError : pyexc :=
  PyExc "StreamlitSecretNotFoundError" true "No secrets found.".

(** The three places where the script calls [st.stop()]. *)
Inductive stop_site :=
| stop_no_api_key      (* line 26 *)
| stop_client_setup    (* line 40 *)
| stop_no_index.       (* line 94 *)

(** How a piece of the script ends: it returns a value, an exception
    propagates out of it, or [st.stop()] ended the execution. *)
Inductive result (A : Type) :=
| Returned (a : A)
| Raised (e : pyexc)
| Stopped (site : stop_site).
Arguments Returned {A} a.
Arguments Raised {A} e.
Arguments Stopped {A} site.

(** The answer of an external call. *)
Inductive reply (A : Type) :=
| Ok (a : A)
| Fail (e : pyexc).
Arguments Ok {A} a.
Arguments Fail {A} e.

(** ** Data *)

(** Objects owned by the libraries are opaque; only their identity matters. *)
Inductive llm_client := LLM (id : nat).
Inductive embed_client := Embedding (id : nat).
Inductive index := Index (id : nat).
Inductive storage_context := Storage (id : nat).
Inductive engine := Engine (id : nat).

Record document := Document { doc_text : string }.

(** One entry of [st.session_state.messages]:
    [{"role": ..., "content": ...}]. *)
Record message := Message { role : string; content : string }.

(** Calls the script makes to its collaborators, in the order made. *)
Inductive event :=
| ev_set_page_config (page_title page_icon layout : string)
| ev_error (body : string)
| ev_title (body : string)
| ev_caption (body : string)
| ev_chat_message (name : string)
| ev_markdown (body : string)
| ev_spinner (text : string)
| ev_chat_input (placeholder : string)
| ev_print (line : string)
| ev_GoogleGenAI (model_name api_key : string)
| ev_GoogleGenAIEmbedding (model_name api_key : string)
| ev_path_exists (path : string)
| ev_read_input_files (input_files : list string)
| ev_read_input_dir (input_dir : string)
| ev_from_documents (documents : list document)
| ev_persist (ix : index) (persist_dir : string)
| ev_from_defaults (persist_dir : string)
| ev_load_index_from_storage (sc : storage_context)
| ev_as_chat_engine (ix : index) (chat_mode system_prompt : string)
| ev_chat (eng : engine) (query : string).

(** Process-wide state: the [st.cache_resource] entry of [load_index]
    (absent, or the value the function returned, where the inner [None] is
    Python's [None]) and the two ambient [Settings] attributes. *)
Record process := Process {
  cache : option (option index);
  Settings_llm : option llm_client;
  Settings_embed_model : option embed_client
}.

(** [st.session_state]: a key is in it iff the field is [Some]. *)
Record session_state := SessionState {
  chat_engine : option engine;
  messages : option (list message)
}.

Record world := World {
  proc : process;
  session : session_state;
  log : list event
}.

(** How the collaborators answer during one execution of the script. *)
Record env := Env {
  st_secrets : reply (gmap string string);
  GoogleGenAI : string -> string -> reply llm_client;
  GoogleGenAIEmbedding : string -> string -> reply embed_client;
  path_exists : string -> bool;
  read_input_files : list string -> reply (list document);
  read_input_dir : string -> reply (list document);
  from_documents : list document -> reply index;
  persist : index -> string -> reply unit;
  from_defaults : string -> reply storage_context;
  load_index_from_storage : storage_context -> reply index;
  as_chat_engine : index -> string -> string -> reply engine;
  chat_input : string -> option string;
  chat : engine -> string -> reply string
}.

(** [st.secrets] parses the secrets files when it is first read: the answer
    is the mapping they hold, or the exception of a failed parse (no secrets
    file at all, for one).  [secrets E] is the mapping when there is one. *)
Definition secrets (E : env) : gmap string string :=
  match st_secrets E with
  | Ok m => m
  | Fail _ => ∅
  end.

(** What reading the key [key] of [st.secrets] comes to. *)
Definition secrets_lookup (E : env) (key : string) : reply (option string) :=
  match st_secrets E with
  | Ok m => Ok (m !! key)
  | Fail e => Fail e
  end.

(** ** The monad *)

Definition M (A : Type) : Type := world -> result A * world.

#[export] Instance M_ret : MRet M := fun A a w => (Returned a, w).

#[export] Instance M_bind : MBind M := fun A B k m w =>
  match m w with
  | (Returned a, w') => k a w'
  | (Raised e, w') => (Raised e, w')
  | (Stopped s, w') => (Stopped s, w')
  end.

Definition raise {A} (e : pyexc) : M A := fun w => (Raised e, w).

(** [st.stop()]: the execution of the script ends here. *)
Definition st_stop {A} (site : stop_site) : M A := fun w => (Stopped site, w).

(** [try: body except Exception as e: handler e].  Only instances of
    [Exception] are caught; [st.stop()] is not an exception of that kind. *)
Definition try_except_Exception {A} (body : M A) (handler : pyexc -> M A) : M A :=
  fun w =>
    match body w with
    | (Raised e, w') =>
        if isinstance_Exception e then handler e w' else (Raised e, w')
    | r => r
    end.

Definition emit (ev : event) : M unit := fun w =>
  (Returned tt, World (proc w) (session w) (log w ++ [ev])).

Definition get_process : M process := fun w => (Returned (proc w), w).
Definition get_session : M session_state := fun w => (Returned (session w), w).

Definition put_process (p : process) : M unit := fun w =>
  (Returned tt, World p (session w) (log w)).
Definition put_session (s : session_state) : M unit := fun w =>
  (Returned tt, World (proc w) s (log w)).

Definition answer {A} (r : reply A) : M A :=
  match r with
  | Ok a => mret a
  | Fail e => raise e
  end.

Fixpoint for_each {A} (l : list A) (body : A -> M unit) : M unit :=
  match l with
  | [] => mret tt
  | x :: l' => body x ;; for_each l' body
  end.

(** ** Module namespace *)

(** Names bound by the import statements, lines 1 to 10. *)
Definition imports : list string :=
  [ "st"; "os"; "sys";
    "StorageContext"; "load_index_from_storage"; "Settings";
    "GoogleGenAI"; "GoogleGenAIEmbedding" ].

Definition builtins : list string := [ "print"; "len"; "Exception" ].

(** Looking up a name the script does not assign itself: module globals,
    then builtins, else [NameError]. *)
Definition resolve (name : string) : M unit :=
  if existsb (String.eqb name) (imports ++ builtins)
  then mret tt
  else raise (NameError name).

(** A call through such a name: resolve it, make the call, get the answer. *)
Definition call {A} (name : string) (ev : event) (r : reply A) : M A :=
  resolve name ;; emit ev ;; answer r.

(** ** The script *)

Definition dq : string := String (ascii_of_nat 34) "".
Definition nl : string := String (ascii_of_nat 10) "".

(** Lines 44 to 59. *)
Definition SYSTEM_PROMPT : string :=
  nl +:+
  "You are " +:+ dq +:+ "RestaurantBot," +:+ dq +:+
  " an expert, friendly, and helpful waiter for our restaurant." +:+ nl +:+
  "Your primary goal is to help customers find the perfect dish." +:+ nl +:+
  nl +:+
  "You must follow these rules at all times:" +:+ nl +:+
  "1.  **Use ONLY the provided data.** Never make up a dish, price, or ingredient." +:+ nl +:+
  "2.  **Be Friendly and Conversational:** Do not just list data. Talk like a helpful waiter." +:+ nl +:+
  "3.  **Answer Allergen Questions:** Use the `tags` data to answer questions about allergens (`contains_gluten`, `contains_nuts`, etc.) and dietary needs (`vegan`, `is_halal`)." +:+ nl +:+
  "4.  **Answer " +:+ dq +:+ "What's Good?" +:+ dq +:+
  ":** Use the customer reviews to answer questions like " +:+ dq +:+
  "What's good?" +:+ dq +:+ " or " +:+ dq +:+ "What's popular?" +:+ dq +:+ nl +:+
  "5.  **ADVANCED PAIRING LOGIC:** When asked for a pairing or recommendation, you must use the following rules based on the `tags`:" +:+ nl +:+
  "    * **Rule 1 (Spice):** Spicy dishes (`spicy`) pair well with cooling, sweet drinks (`cooling`, `sweet`) or light, crisp beers (`light`, `crisp`)." +:+ nl +:+
  "    * **Rule 2 (Intensity):** Rich, heavy dishes (`rich`, `heavy`, `red_meat`) pair with full-bodied drinks (like a `red_wine` with `tannic` tags)." +:+ nl +:+
  "    * **Rule 3 (Intensity):** Light, delicate dishes (`light`, `delicate`, `fish`, `poultry`) pair with light-bodied, acidic drinks (like a `white_wine` with `crisp`, `acidic` tags)." +:+ nl +:+
  "    * **Rule 4 (Contrast):** Acidic drinks (`acidic`) can cut through rich, creamy dishes (`rich`, `creamy`)." +:+ nl +:+
  "6.  **Explain Your Recommendations:** When you recommend a pairing, *always explain why* using the rules." +:+ nl.

Definition PERSIST_DIR : string := "./storage".

(** The seed of the transcript, line 109. *)
Definition greeting : message :=
  Message "assistant" "Hi! I'm RestaurantBot. Ask me anything about the menu.".

(** Python truthiness of what [st.chat_input] returns ([None] or a string). *)
Definition truthy (q : option string) : bool :=
  match q with
  | None => false
  | Some s => negb (String.eqb s "")
  end.

Section Script.

Variable E : env.

(** *** Streamlit primitives used by the script *)

Definition st (ev : event) : M unit := call "st" ev (Ok tt).

(** ["GOOGLE_API_KEY" in st.secrets]: the membership test reads the
    mapping, so it raises what the parse of the secrets files raises. *)
Definition secrets_contains (key : string) : M bool :=
  resolve "st" ;;
  m ← answer (st_secrets E);
  mret (bool_decide (is_Some (m !! key))).

(** [st.secrets["GOOGLE_API_KEY"]] *)
Definition secrets_getitem (key : string) : M string :=
  resolve "st" ;;
  m ← answer (st_secrets E);
  match m !! key with
  | Some v => mret v
  | None => raise (KeyError key)
  end.

(** [st.session_state.messages] *)
Definition session_messages : M (list message) :=
  resolve "st" ;;
  s ← get_session;
  match messages s with
  | Some l => mret l
  | None => raise (AttributeError "messages")
  end.

(** [st.session_state.chat_engine] *)
Definition session_chat_engine : M engine :=
  resolve "st" ;;
  s ← get_session;
  match chat_engine s with
  | Some e => mret e
  | None => raise (AttributeError "chat_engine")
  end.

(** [st.session_state.messages.append(m)]: the list held by the session
    is extended in place. *)
Definition messages_append (m : message) : M unit :=
  l ← session_messages;
  s ← get_session;
  put_session (SessionState (chat_engine s) (Some (l ++ [m]))).

(** [@st.cache_resource(show_spinner=...)] around a function without
    arguments: a stored value is handed back without running the function;
    otherwise the function runs under the spinner and the value it returns
    is stored.  Nothing is stored when the function raises. *)
Definition cache_resource (show_spinner : string) (f : M (option index))
  : M (option index) :=
  resolve "st" ;;
  p ← get_process;
  match cache p with
  | Some v => mret v
  | None =>
      emit (ev_spinner show_spinner) ;;
      v ← f;
      p' ← get_process;
      put_process (Process (Some v) (Settings_llm p') (Settings_embed_model p')) ;;
      mret v
  end.

(** *** Lines 13 to 17 *)
Definition page_configuration : M unit :=
  st (ev_set_page_config "B-West Grill" "🍔" "centered").

(** *** Lines 22 to 26 *)
Definition get_api_key : M string :=
  present ← secrets_contains "GOOGLE_API_KEY";
  if (present : bool) then
    secrets_getitem "GOOGLE_API_KEY"
  else
    st (ev_error "API Key not found. Please add it to your Streamlit Secrets.") ;;
    st_stop stop_no_api_key.

(** *** Lines 29 to 40 *)
Definition configure_models (google_api_key : string) : M unit :=
  try_except_Exception
    (llm ← call "GoogleGenAI"
             (ev_GoogleGenAI "models/gemini-1.5-flash" google_api_key)
             (GoogleGenAI E "models/gemini-1.5-flash" google_api_key);
     resolve "Settings" ;;
     p ← get_process;
     put_process (Process (cache p) (Some llm) (Settings_embed_model p)) ;;
     em ← call "GoogleGenAIEmbedding"
            (ev_GoogleGenAIEmbedding "models/embedding-001" google_api_key)
            (GoogleGenAIEmbedding E "models/embedding-001" google_api_key);
     resolve "Settings" ;;
     p ← get_process;
     put_process (Process (cache p) (Settings_llm p) (Some em)))
    (fun e =>
       st (ev_error ("Error setting up Google AI. Check your API key. Details: "
                     +:+ exc_str e)) ;;
       st_stop stop_client_setup).

(** *** Lines 63 to 90: the body of [load_index] *)
Definition load_index : M (option index) :=
  exists_ ← call "os" (ev_path_exists PERSIST_DIR) (Ok (path_exists E PERSIST_DIR));
  if negb exists_ then
    call "print" (ev_print "Storage not found. Rebuilding index...") (Ok tt) ;;
    menu_docs ← call "SimpleDirectoryReader"
                  (ev_read_input_files ["./menu_data.csv"])
                  (read_input_files E ["./menu_data.csv"]);
    review_docs ← call "SimpleDirectoryReader"
                    (ev_read_input_dir "./reviews")
                    (read_input_dir E "./reviews");
    let documents := menu_docs ++ review_docs in
    resolve "len" ;;
    call "print"
         (ev_print ("Loaded " +:+ pretty (length documents) +:+ " documents. Indexing..."))
         (Ok tt) ;;
    ix ← call "VectorStoreIndex" (ev_from_documents documents)
           (from_documents E documents);
    emit (ev_persist ix PERSIST_DIR) ;; answer (persist E ix PERSIST_DIR) ;;
    call "print" (ev_print "Index created and saved.") (Ok tt) ;;
    mret (Some ix)
  else
    sc ← call "StorageContext" (ev_from_defaults PERSIST_DIR)
           (from_defaults E PERSIST_DIR);
    ix ← call "load_index_from_storage" (ev_load_index_from_storage sc)
           (load_index_from_storage E sc);
    mret (Some ix).

(** *** Lines 62 and 92 to 94 *)
Definition load_knowledge_base : M index :=
  ix ← cache_resource "Loading knowledge base... 🧠" load_index;
  match ix with
  | None => st_stop stop_no_index
  | Some i => mret i
  end.

(** *** Lines 97 to 101 *)
Definition init_chat_engine (ix : index) : M unit :=
  resolve "st" ;;
  s ← get_session;
  match chat_engine s with
  | None =>
      eng ← (emit (ev_as_chat_engine ix "context" SYSTEM_PROMPT) ;;
             answer (as_chat_engine E ix "context" SYSTEM_PROMPT));
      resolve "st" ;;
      s' ← get_session;
      put_session (SessionState (Some eng) (messages s'))
  | Some _ => mret tt
  end.

(** *** Lines 104 to 114 *)
Definition display_history : M unit :=
  st (ev_title "🍽️ RestaurantBot") ;;
  st (ev_caption "Ask me about the menu, allergens, or what's good!") ;;
  resolve "st" ;;
  s ← get_session;
  (match messages s with
   | None => put_session (SessionState (chat_engine s) (Some [greeting]))
   | Some _ => mret tt
   end) ;;
  msgs ← session_messages;
  for_each msgs (fun msg =>
    st (ev_chat_message (role msg)) ;;
    st (ev_markdown (content msg))).

(** *** Lines 117 to 127 *)
Definition chat_turn : M unit :=
  st (ev_chat_input "What would you like to know?") ;;
  let user_query := chat_input E "What would you like to know?" in
  if truthy user_query then
    let q := default "" user_query in
    messages_append (Message "user" q) ;;
    st (ev_chat_message "user") ;;
    st (ev_markdown q) ;;
    st (ev_chat_message "assistant") ;;
    st (ev_spinner "Thinking...") ;;
    eng ← session_chat_engine;
    response ← (emit (ev_chat eng q) ;; answer (chat E eng q));
    st (ev_markdown response) ;;
    messages_append (Message "assistant" response)
  else
    mret tt.

(** *** The whole file, one execution *)
Definition script : M unit :=
  page_configuration ;;
  google_api_key ← get_api_key;
  configure_models google_api_key ;;
  ix ← load_knowledge_base;
  init_chat_engine ix ;;
  display_history ;;
  chat_turn.

End Script.

(** ** The server: one process, many sessions *)

Definition initial_process : process := Process None None None.
Definition new_session : session_state := SessionState None None.

Record server := Server {
  srv_process : process;
  srv_sessions : gmap nat session_state
}.

Definition initial_server : server := Server initial_process ∅.

(** What one execution of the script left behind for an observer. *)
Record run := Run {
  run_sid : nat;
  run_env : env;
  run_result : result unit;
  run_log : list event
}.

(** An interaction in session [sid]: the script is executed on the process
    state and on that session's state (a fresh one at the first visit). *)
Definition rerun (sid : nat) (E : env) (sv : server) : run * server :=
  let s := default new_session (srv_sessions sv !! sid) in
  let rw := script E (World (srv_process sv) s []) in
  (Run sid E rw.1 (log rw.2),
   Server (proc rw.2) (<[sid := session rw.2]> (srv_sessions sv))).

Fixpoint serve (reqs : list (nat * env)) (sv : server) : list run * server :=
  match reqs with
  | [] => ([], sv)
  | (sid, E) :: reqs' =>
      let rs := rerun sid E sv in
      let rest := serve reqs' rs.2 in
      (rs.1 :: rest.1, rest.2)
  end.

(** The messages of session [sid], when the session has a transcript. *)
Definition transcript_of (sv : server) (sid : nat) : option (list message) :=
  s ← srv_sessions sv !! sid; messages s.

(** The chat engine of session [sid], when the session has one. *)
Definition engine_of (sv : server) (sid : nat) : option engine :=
  s ← srv_sessions sv !! sid; chat_engine s.

(** ** Vocabulary of the properties *)

Definition logged (w : world) (evs : list event) : world :=
  World (proc w) (session w) (log w ++ evs).

(** What the loop of lines 112 to 114 displays. *)
Definition rendering (msgs : list message) : list event :=
  flat_map (fun msg => [ev_chat_message (role msg); ev_markdown (content msg)]) msgs.

Definition the_prompt : string := "What would you like to know?".

(** A user turn is completed when the execution that received the query ran
    to the end of the script: whether an execution with result [r] under [E]
    completed one. *)
Definition completes (E : env) (r : result unit) : bool :=
  match r with
  | Returned _ => truthy (chat_input E the_prompt)
  | _ => false
  end.

Definition completed_turn (r : run) : bool :=
  completes (run_env r) (run_result r).

Fixpoint completed_turns (sid : nat) (runs : list run) : nat :=
  match runs with
  | [] => 0
  | r :: runs' =>
      (if Nat.eqb (run_sid r) sid && completed_turn r then 1 else 0)
      + completed_turns sid runs'
  end.

(** Every chat call of the environment is answered. *)
Definition chat_succeeds (E : env) : Prop :=
  forall eng q, exists response, chat E eng q = Ok response.

Definition is_error (ev : event) : bool :=
  match ev with ev_error _ => true | _ => false end.

(** Calls that may reach the hosted API: client construction, embedding of
    documents, retrieval and generation. *)
Definition is_network_call (ev : event) : bool :=
  match ev with
  | ev_GoogleGenAI _ _ | ev_GoogleGenAIEmbedding _ _
  | ev_from_documents _ | ev_as_chat_engine _ _ _ | ev_chat _ _ => true
  | _ => false
  end.

(** Calls of [load_index]: the existence test, the source files, the build,
    the persistence directory. *)
Definition is_index_io (ev : event) : bool :=
  match ev with
  | ev_path_exists _ | ev_read_input_files _ | ev_read_input_dir _
  | ev_from_documents _ | ev_persist _ _
  | ev_from_defaults _ | ev_load_index_from_storage _ => true
  | _ => false
  end.

Definition is_engine_creation (ev : event) : bool :=
  match ev with ev_as_chat_engine _ _ _ => true | _ => false end.

Definition is_chat_call (ev : event) : bool :=
  match ev with ev_chat _ _ => true | _ => false end.

Definition count_events (f : event -> bool) (evs : list event) : nat :=
  length (List.filter f evs).

(** ** Sample environments *)

Definition KeyboardInterrupt : pyexc := PyExc "KeyboardInterrupt" false "".

Definition ValueError (msg : string) : pyexc := PyExc "ValueError" true msg.

(** The key is configured, the clients construct, [./storage] holds a
    persisted index, and the user submits a question that is answered. *)
Definition E_ok : env := {|
  st_secrets := Ok {[ "GOOGLE_API_KEY" := "AIza-demo" ]};
  GoogleGenAI := fun _ _ => Ok (LLM 1);
  GoogleGenAIEmbedding := fun _ _ => Ok (Embedding 2);
  path_exists := fun p => String.eqb p "./storage";
  read_input_files := fun _ => Ok [Document "name,price,tags"; Document "Jollof,12,spicy"];
  read_input_dir := fun _ => Ok [Document "Loved the suya"];
  from_documents := fun _ => Ok (Index 7);
  persist := fun _ _ => Ok tt;
  from_defaults := fun _ => Ok (Storage 3);
  load_index_from_storage := fun _ => Ok (Index 4);
  as_chat_engine := fun _ _ _ => Ok (Engine 5);
  chat_input := fun _ => Some "What's good?";
  chat := fun _ _ => Ok "Try the suya."
|}.

(** As [E_ok], with the secret store, the existence of [./storage], the
    submitted text and the answers of the two client constructors and of
    the chat call replaced. *)
Definition E_with (sec : gmap string string) (storage : bool)
    (llm : reply llm_client) (em : reply embed_client)
    (input : option string) (ans : reply string) : env := {|
  st_secrets := Ok sec;
  GoogleGenAI := fun _ _ => llm;
  GoogleGenAIEmbedding := fun _ _ => em;
  path_exists := fun p => storage && String.eqb p "./storage";
  read_input_files := read_input_files E_ok;
  read_input_dir := read_input_dir E_ok;
  from_documents := from_documents E_ok;
  persist := persist E_ok;
  from_defaults := from_defaults E_ok;
  load_index_from_storage := load_index_from_storage E_ok;
  as_chat_engine := as_chat_engine E_ok;
  chat_input := fun _ => input;
  chat := fun _ _ => ans
|}.

(** No [./storage] directory: the first start of a fresh checkout. *)
Definition E_no_storage : env :=
  E_with (secrets E_ok) false (Ok (LLM 1)) (Ok (Embedding 2)) None (Ok "").

(** No secrets file at all: nothing was ever saved in the secret store. *)
Definition E_no_secrets_file : env := {|
  st_secrets := Fail StreamlitSecretNotFoundError;
  GoogleGenAI := GoogleGenAI E_ok;
  GoogleGenAIEmbedding := GoogleGenAIEmbedding E_ok;
  path_exists := path_exists E_ok;
  read_input_files := read_input_files E_ok;
  read_input_dir := read_input_dir E_ok;
  from_documents := from_documents E_ok;
  persist := persist E_ok;
  from_defaults := from_defaults E_ok;
  load_index_from_storage := load_index_from_storage E_ok;
  as_chat_engine := as_chat_engine E_ok;
  chat_input := fun _ => None;
  chat := chat E_ok
|}.

(** No credential in the secret store. *)
Definition E_no_key : env :=
  E_with ∅ true (Ok (LLM 1)) (Ok (Embedding 2)) None (Ok "").

(** The generation client rejects the key. *)
Definition E_bad_key : env :=
  E_with (secrets E_ok) true (Fail (ValueError "API key not valid"))
         (Ok (Embedding 2)) None (Ok "").

(** The construction of the generation client is interrupted. *)
Definition E_interrupt : env :=
  E_with (secrets E_ok) true (Fail KeyboardInterrupt)
         (Ok (Embedding 2)) None (Ok "").

(** The page is displayed and nothing is submitted. *)
Definition E_idle : env :=
  E_with (secrets E_ok) true (Ok (LLM 1)) (Ok (Embedding 2)) None (Ok "").

(** The hosted model fails during the turn. *)
Definition E_chat_down : env :=
  E_with (secrets E_ok) true (Ok (LLM 1)) (Ok (Embedding 2))
         (Some "Any vegan dish?") (Fail (ValueError "503 Service Unavailable")).

Definition fresh_world : world := World initial_process new_session [].

(** ** The two halves of an execution *)

(** Lines 13 to 94: everything before the session is touched. *)
Definition startup (E : env) : M index :=
  page_configuration ;;
  google_api_key ← get_api_key E;
  configure_models E google_api_key ;;
  load_knowledge_base E.

(** Lines 97 to 127: the part that works on [st.session_state]. *)
Definition conversation (E : env) (ix : index) : M unit :=
  init_chat_engine E ix ;;
  display_history ;;
  chat_turn E.

(** Calls made by lines 13 to 94. *)
Definition is_startup_event (ev : event) : bool :=
  match ev with
  | ev_set_page_config _ _ _ | ev_error _ | ev_spinner _ | ev_print _
  | ev_GoogleGenAI _ _ | ev_GoogleGenAIEmbedding _ _
  | ev_path_exists _ | ev_from_defaults _ | ev_load_index_from_storage _ => true
  | _ => false
  end.

(** What lines 104 to 117 display for a transcript [l]. *)
Definition heading (l : list message) : list event :=
  [ev_title "🍽️ RestaurantBot";
   ev_caption "Ask me about the menu, allergens, or what's good!"]
  ++ rendering l ++ [ev_chat_input the_prompt].

(** What lines 119 to 124 do for the query [q] on the engine [eng]. *)
Definition asking (eng : engine) (q : string) : list event :=
  [ev_chat_message "user"; ev_markdown q;
   ev_chat_message "assistant"; ev_spinner "Thinking..."; ev_chat eng q].

(** The engine lines 97 to 101 leave in the session, and the call they made
    to get it: the one already there, or a new one. *)
Inductive engine_ready (E : env) (ix : index) (s : session_state)
  : engine -> list event -> Prop :=
| engine_kept eng :
    chat_engine s = Some eng ->
    engine_ready E ix s eng []
| engine_made eng :
    chat_engine s = None ->
    as_chat_engine E ix "context" SYSTEM_PROMPT = Ok eng ->
    engine_ready E ix s eng [ev_as_chat_engine ix "context" SYSTEM_PROMPT].

(** The six ways an execution on the session state [s] can go. *)
Inductive run_shape (E : env) (p : process) (s : session_state)
  : result unit * world -> Prop :=
| shape_raised e w1 :
    startup E (World p s []) = (Raised e, w1) ->
    run_shape E p s (Raised e, w1)
| shape_stopped site w1 :
    startup E (World p s []) = (Stopped site, w1) ->
    run_shape E p s (Stopped site, w1)
| shape_no_engine ix w1 e :
    startup E (World p s []) = (Returned ix, w1) ->
    chat_engine s = None ->
    as_chat_engine E ix "context" SYSTEM_PROMPT = Fail e ->
    run_shape E p s
      (Raised e, World (proc w1) s
                   (log w1 ++ [ev_as_chat_engine ix "context" SYSTEM_PROMPT]))
| shape_idle ix w1 eng evs :
    startup E (World p s []) = (Returned ix, w1) ->
    engine_ready E ix s eng evs ->
    truthy (chat_input E the_prompt) = false ->
    let l := default [greeting] (messages s) in
    run_shape E p s
      (Returned tt,
       World (proc w1) (SessionState (Some eng) (Some l))
             (log w1 ++ evs ++ heading l))
| shape_turn ix w1 eng evs q response :
    startup E (World p s []) = (Returned ix, w1) ->
    engine_ready E ix s eng evs ->
    chat_input E the_prompt = Some q ->
    q <> "" ->
    chat E eng q = Ok response ->
    let l := default [greeting] (messages s) in
    run_shape E p s
      (Returned tt,
       World (proc w1)
             (SessionState (Some eng)
                (Some (l ++ [Message "user" q; Message "assistant" response])))
             (log w1 ++ evs ++ heading l ++ asking eng q ++ [ev_markdown response]))
| shape_turn_failed ix w1 eng evs q e :
    startup E (World p s []) = (Returned ix, w1) ->
    engine_ready E ix s eng evs ->
    chat_input E the_prompt = Some q ->
    q <> "" ->
    chat E eng q = Fail e ->
    let l := default [greeting] (messages s) in
    run_shape E p s
      (Raised e,
       World (proc w1)
             (SessionState (Some eng) (Some (l ++ [Message "user" q])))
             (log w1 ++ evs ++ heading l ++ asking eng q)).

(** The cache entry is only ever filled with an index. *)
Definition cache_ok (p : process) : Prop := cache p <> Some None.

(** Calls made by lines 97 to 127. *)
Definition is_conversation_event (ev : event) : bool :=
  match ev with
  | ev_as_chat_engine _ _ _ | ev_title _ | ev_caption _ | ev_chat_message _
  | ev_markdown _ | ev_chat_input _ | ev_spinner _ | ev_chat _ _ => true
  | _ => false
  end.

(** A client construction is given the key [key]. *)
Definition uses_key (key : string) (ev : event) : bool :=
  match ev with
  | ev_GoogleGenAI _ k | ev_GoogleGenAIEmbedding _ k => String.eqb k key
  | _ => true
  end.

Definition the_page : event := ev_set_page_config "B-West Grill" "🍔" "centered".
Definition no_key_message : string :=
  "API Key not found. Please add it to your Streamlit Secrets.".

Definition setup_message (e : pyexc) : string :=
  "Error setting up Google AI. Check your API key. Details: " +:+ exc_str e.
Definition gemini : string := "models/gemini-1.5-flash".
Definition embedding_001 : string := "models/embedding-001".
Definition loading : event := ev_spinner "Loading knowledge base... 🧠".

(** Roles alternate from the seed on: assistant at the even positions, user
    at the odd ones. *)
Definition alternating (l : list message) : Prop :=
  forall i m, l !! i = Some m ->
              role m = if Nat.even i then "assistant" else "user".

(** A transcript with [n] completed turns. *)
Definition transcript_inv (n : nat) (l : list message) : Prop :=
  head l = Some greeting /\ length l = 1 + 2 * n /\ alternating l.

(** The same for a session that may not have a transcript yet. *)
Definition session_inv (n : nat) (o : option (list message)) : Prop :=
  match o with
  | None => n = 0
  | Some l => transcript_inv n l
  end.

(** The session a request of [sid] runs on, and what it finds there. *)
Definition session_of (sv : server) (sid : nat) : session_state :=
  default new_session (srv_sessions sv !! sid).

(** Session 0 opens the page and asks twice; in between, session 1 asks
    once while the hosted model is down. *)
Definition sample_requests : list (nat * env) :=
  [(0, E_idle); (0, E_ok); (1, E_chat_down); (0, E_ok)].

Definition is_page_config (ev : event) : bool :=
  match ev with ev_set_page_config _ _ _ => true | _ => false end.

(** Calls of the rebuild branch, lines 71 to 84. *)
Definition is_build_call (ev : event) : bool :=
  match ev with
  | ev_read_input_files _ | ev_read_input_dir _
  | ev_from_documents _ | ev_persist _ _ => true
  | _ => false
  end.

Definition is_title (ev : event) : bool :=
  match ev with ev_title _ => true | _ => false end.

(** What the page shows as chat messages: each [st.markdown] belongs to the
    [st.chat_message] container opened last. *)
Fixpoint displayed_in (container : option string) (evs : list event)
  : list message :=
  match evs with
  | [] => []
  | ev_chat_message r :: evs' => displayed_in (Some r) evs'
  | ev_markdown body :: evs' =>
      match container with
      | Some r => Message r body :: displayed_in container evs'
      | None => displayed_in container evs'
      end
  | _ :: evs' => displayed_in container evs'
  end.

Definition displayed (evs : list event) : list message := displayed_in None evs.

(** Where an exception that ends an execution under [E] can come from: the
    read of the secret store, the unbound name of line 71, or a collaborator
    that raised it. *)
Inductive raised_by (E : env) (e : pyexc) : Prop :=
| by_secrets :
    st_secrets E = Fail e -> raised_by E e
| by_unbound_name :
    e = NameError "SimpleDirectoryReader" -> raised_by E e
| by_GoogleGenAI key :
    GoogleGenAI E gemini key = Fail e -> isinstance_Exception e = false ->
    raised_by E e
| by_GoogleGenAIEmbedding key :
    GoogleGenAIEmbedding E embedding_001 key = Fail e ->
    isinstance_Exception e = false ->
    raised_by E e
| by_from_defaults :
    from_defaults E PERSIST_DIR = Fail e -> raised_by E e
| by_load_index_from_storage sc :
    load_index_from_storage E sc = Fail e -> raised_by E e
| by_as_chat_engine ix :
    as_chat_engine E ix "context" SYSTEM_PROMPT = Fail e -> raised_by E e
| by_chat eng q :
    chat E eng q = Fail e -> raised_by E e.

Definition is_GoogleGenAI (ev : event) : bool :=
  match ev with ev_GoogleGenAI _ _ => true | _ => false end.

Definition is_GoogleGenAIEmbedding (ev : event) : bool :=
  match ev with ev_GoogleGenAIEmbedding _ _ => true | _ => false end.

(** The answer an execution displayed last. *)
Definition answer_shown (r : run) : string :=
  match last (run_log r) with
  | Some (ev_markdown body) => body
  | _ => ""
  end.

(** The two messages of a completed turn: the query submitted and the
    answer displayed. *)
Definition exchange (r : run) : list message :=
  if completed_turn r then
    [Message "user" (default "" (chat_input (run_env r) the_prompt));
     Message "assistant" (answer_shown r)]
  else [].

(** The exchanges of session [sid], oldest first. *)
Fixpoint exchanges (sid : nat) (runs : list run) : list message :=
  match runs with
  | [] => []
  | r :: runs' =>
      (if Nat.eqb (run_sid r) sid then exchange r else []) ++ exchanges sid runs'
  end.

(** How a transcript [o] has become [o'] by the exchanges [xs]. *)
Definition grown_by (o : option (list message)) (xs : list message)
    (o' : option (list message)) : Prop :=
  (o' = o /\ xs = []) \/ o' = Some (default [greeting] o ++ xs).

(** A session that has had one exchange. *)
Definition session_after_one_turn : session_state :=
  SessionState (Some (Engine 5))
    (Some [greeting; Message "user" "What's good?";
           Message "assistant" "Try the suya."]).

(** Two sessions open the page one after the other. *)
Definition two_visitors : list (nat * env) := [(0, E_ok); (1, E_ok)].

(** Two sessions on a checkout without [./storage]. *)
Definition two_visitors_no_storage : list (nat * env) :=
  [(0, E_no_storage); (1, E_no_storage)].

(** The exception of an answer, when the answer is one. *)
Definition failed {A} (r : reply A) : option pyexc :=
  match r with
  | Ok _ => None
  | Fail e => Some e
  end.

(** The exception with which the collaborator answers the call [ev] under
    [E], when the call is one that fails. *)
Definition failure_of (E : env) (ev : event) : option pyexc :=
  match ev with
  | ev_GoogleGenAI m k => failed (GoogleGenAI E m k)
  | ev_GoogleGenAIEmbedding m k => failed (GoogleGenAIEmbedding E m k)
  | ev_read_input_files fs => failed (read_input_files E fs)
  | ev_read_input_dir d => failed (read_input_dir E d)
  | ev_from_documents docs => failed (from_documents E docs)
  | ev_persist ix d => failed (persist E ix d)
  | ev_from_defaults d => failed (from_defaults E d)
  | ev_load_index_from_storage sc => failed (load_index_from_storage E sc)
  | ev_as_chat_engine ix m sp => failed (as_chat_engine E ix m sp)
  | ev_chat eng q => failed (chat E eng q)
  | _ => None
  end.

(** The two calls inside the [try] of lines 29 to 37. *)
Definition is_client_construction (ev : event) : bool :=
  is_GoogleGenAI ev || is_GoogleGenAIEmbedding ev.

(** The executions of session [sid], oldest first. *)
Definition sid_runs (sid : nat) (runs : list run) : list run :=
  List.filter (fun r => Nat.eqb (run_sid r) sid) runs.

(** An execution that left the session without an engine: it made no chat
    call, and at most one creating call, which failed. *)
Definition without_engine (r : run) : Prop :=
  count_events is_engine_creation (run_log r) <= 1
  /\ count_events is_chat_call (run_log r) = 0
  /\ forall ix m sp,
       ev_as_chat_engine ix m sp ∈ run_log r ->
       m = "context" /\ sp = SYSTEM_PROMPT
       /\ exists e, as_chat_engine (run_env r) ix m sp = Fail e.

(** The execution that created the engine [eng]: one creating call, with
    chat mode ["context"] and the system prompt, answered with [eng]. *)
Definition creates (eng : engine) (r : run) : Prop :=
  count_events is_engine_creation (run_log r) = 1
  /\ (exists ix, ev_as_chat_engine ix "context" SYSTEM_PROMPT ∈ run_log r
                 /\ as_chat_engine (run_env r) ix "context" SYSTEM_PROMPT = Ok eng)
  /\ forall eng' q, ev_chat eng' q ∈ run_log r -> eng' = eng.

(** An execution that found the engine [eng]: no creating call, and chat
    calls on [eng] only. *)
Definition reuses (eng : engine) (r : run) : Prop :=
  count_events is_engine_creation (run_log r) = 0
  /\ forall eng' q, ev_chat eng' q ∈ run_log r -> eng' = eng.

(** How the executions of a session divide: those before the engine was
    there, the one that created it, those that reuse it. *)
Definition engine_history (o : option engine) (runs : list run) : Prop :=
  match o with
  | None => Forall without_engine runs
  | Some eng =>
      exists before r after,
        runs = before ++ r :: after
        /\ Forall without_engine before
        /\ creates eng r
        /\ Forall (reuses eng) after
  end.

(** The chat engine cannot be created. *)
Definition E_engine_down : env := {|
  st_secrets := st_secrets E_ok;
  GoogleGenAI := GoogleGenAI E_ok;
  GoogleGenAIEmbedding := GoogleGenAIEmbedding E_ok;
  path_exists := path_exists E_ok;
  read_input_files := read_input_files E_ok;
  read_input_dir := read_input_dir E_ok;
  from_documents := from_documents E_ok;
  persist := persist E_ok;
  from_defaults := from_defaults E_ok;
  load_index_from_storage := load_index_from_storage E_ok;
  as_chat_engine := fun _ _ _ => Fail (ValueError "no retriever");
  chat_input := fun _ => None;
  chat := chat E_ok
|}.

(** A session whose first execution finds no key, then one that goes
    through, then one without a query. *)
Definition late_start : list (nat * env) :=
  [(0, E_no_key); (0, E_ok); (0, E_idle)].

(** * Properties *)

(** ** Running the monad *)

Lemma bind_run {A B} (m : M A) (k : A -> M B) (w : world) :
  (m ≫= k) w =
  match m w with
  | (Returned a, w') => k a w'
  | (Raised e, w') => (Raised e, w')
  | (Stopped s, w') => (Stopped s, w')
  end.
Proof. reflexivity. Qed.

Lemma mret_run {A} (a : A) (w : world) : (mret a : M A) w = (Returned a, w).
Proof. reflexivity. Qed.

Lemma resolve_st w : resolve "st" w = (Returned tt, w).
Proof. reflexivity. Qed.

Lemma st_run ev w : st ev w = (Returned tt, logged w [ev]).
Proof. reflexivity. Qed.

Lemma logged_nil w : logged w [] = w.
Proof. destruct w; unfold logged; simpl. by rewrite app_nil_r. Qed.

Lemma ret_bind {A B} (a : A) (k : A -> M B) w : (mret a ≫= k) w = k a w.
Proof. reflexivity. Qed.

Lemma bind_ret {A} (m : M A) w : (m ≫= mret) w = m w.
Proof. rewrite bind_run. by destruct (m w) as [[a|e|site] w']. Qed.

Lemma bind_assoc {A B C} (m : M A) (k : A -> M B) (h : B -> M C) w :
  ((m ≫= k) ≫= h) w = (m ≫= (fun a => k a ≫= h)) w.
Proof. rewrite !bind_run. by destruct (m w) as [[a|e|site] w']. Qed.

(** Symbolic execution: one monadic step after the other, without looking
    inside the collaborators' answers. *)
Ltac step :=
  repeat first
    [ rewrite bind_run
    | rewrite st_run
    | rewrite resolve_st
    | rewrite mret_run
    | progress unfold get_session, put_session, get_process, put_process,
                      emit, answer, raise, st_stop
    | progress cbn [proc session log messages chat_engine cache
                    Settings_llm Settings_embed_model logged] ].

Ltac run :=
  repeat (progress (unfold mbind, M_bind, mret, M_ret, st, call, resolve, emit,
                    answer, raise, st_stop, get_session, put_session,
                    get_process, put_process, logged; simpl)).

Ltac finish := unfold logged; simpl; rewrite <- ?app_assoc; simpl; try reflexivity.

(** ** The phases, one equation each *)

Lemma page_configuration_run w :
  page_configuration w =
  (Returned tt, logged w [ev_set_page_config "B-West Grill" "🍔" "centered"]).
Proof. reflexivity. Qed.

Lemma secrets_lookup_key E key k :
  secrets E !! key = Some k -> secrets_lookup E key = Ok (Some k).
Proof.
  unfold secrets, secrets_lookup. destruct (st_secrets E) as [m|e].
  - by intros ->.
  - by rewrite lookup_empty.
Qed.

Lemma secrets_lookup_Some E key k :
  secrets_lookup E key = Ok (Some k) -> secrets E !! key = Some k.
Proof.
  unfold secrets, secrets_lookup. destruct (st_secrets E) as [m|e]; congruence.
Qed.

Lemma secrets_lookup_Fail E key e :
  secrets_lookup E key = Fail e -> st_secrets E = Fail e.
Proof.
  unfold secrets_lookup. destruct (st_secrets E) as [m|e']; congruence.
Qed.

Lemma secrets_lookup_None E key :
  secrets_lookup E key = Ok None -> secrets E !! key = None.
Proof.
  unfold secrets, secrets_lookup. destruct (st_secrets E) as [m|e]; congruence.
Qed.

Lemma get_api_key_run E w :
  get_api_key E w =
  match secrets_lookup E "GOOGLE_API_KEY" with
  | Fail e => (Raised e, w)
  | Ok (Some k) => (Returned k, w)
  | Ok None =>
      (Stopped stop_no_api_key,
       logged w [ev_error "API Key not found. Please add it to your Streamlit Secrets."])
  end.
Proof.
  unfold get_api_key, secrets_contains, secrets_getitem, secrets_lookup.
  rewrite !bind_run.
  destruct (st_secrets E) as [m|e]; [|reflexivity].
  step. destruct (m !! "GOOGLE_API_KEY") as [k|] eqn:Hk.
  - change (bool_decide (is_Some (Some k))) with true. cbv iota.
    step. by rewrite Hk.
  - reflexivity.
Qed.

Lemma configure_models_run E key w :
  configure_models E key w =
  match GoogleGenAI E "models/gemini-1.5-flash" key with
  | Fail e =>
      let w1 := logged w [ev_GoogleGenAI "models/gemini-1.5-flash" key] in
      if isinstance_Exception e then
        (Stopped stop_client_setup,
         logged w1 [ev_error ("Error setting up Google AI. Check your API key. Details: "
                              +:+ exc_str e)])
      else (Raised e, w1)
  | Ok llm =>
      let p1 := Process (cache (proc w)) (Some llm) (Settings_embed_model (proc w)) in
      let w1 := World p1 (session w)
                      (log w ++ [ev_GoogleGenAI "models/gemini-1.5-flash" key;
                                 ev_GoogleGenAIEmbedding "models/embedding-001" key]) in
      match GoogleGenAIEmbedding E "models/embedding-001" key with
      | Fail e =>
          if isinstance_Exception e then
            (Stopped stop_client_setup,
             logged w1 [ev_error ("Error setting up Google AI. Check your API key. Details: "
                                  +:+ exc_str e)])
          else (Raised e, w1)
      | Ok em =>
          (Returned tt,
           World (Process (cache (proc w)) (Some llm) (Some em)) (session w) (log w1))
      end
  end.
Proof.
  unfold configure_models, try_except_Exception, call.
  rewrite !bind_run.
  destruct (GoogleGenAI E _ key) as [llm|e]; simpl.
  - destruct (GoogleGenAIEmbedding E _ key) as [em|e]; simpl.
    + run; finish.
    + destruct (isinstance_Exception e); run; finish.
  - destruct (isinstance_Exception e); reflexivity.
Qed.

Lemma load_index_run E w :
  load_index E w =
  if path_exists E PERSIST_DIR then
    let w1 := logged w [ev_path_exists PERSIST_DIR; ev_from_defaults PERSIST_DIR] in
    match from_defaults E PERSIST_DIR with
    | Fail e => (Raised e, w1)
    | Ok sc =>
        let w2 := logged w1 [ev_load_index_from_storage sc] in
        match load_index_from_storage E sc with
        | Fail e => (Raised e, w2)
        | Ok ix => (Returned (Some ix), w2)
        end
    end
  else
    (Raised (NameError "SimpleDirectoryReader"),
     logged w [ev_path_exists PERSIST_DIR;
               ev_print "Storage not found. Rebuilding index..."]).
Proof.
  unfold load_index. run.
  destruct (path_exists E PERSIST_DIR); run.
  - destruct (from_defaults E PERSIST_DIR) as [sc|e]; run.
    + destruct (load_index_from_storage E sc); run; finish.
    + run; finish.
  - run; finish.
Qed.

Lemma cache_resource_run E sp w :
  cache_resource sp (load_index E) w =
  match cache (proc w) with
  | Some v => (Returned v, w)
  | None =>
      match load_index E (logged w [ev_spinner sp]) with
      | (Returned v, w') =>
          (Returned v,
           World (Process (Some v) (Settings_llm (proc w')) (Settings_embed_model (proc w')))
                 (session w') (log w'))
      | r => r
      end
  end.
Proof.
  unfold cache_resource. run.
  destruct (cache (proc w)); [reflexivity|].
  run. destruct (load_index E _) as [[v|e|s] w']; reflexivity.
Qed.

Lemma for_each_render msgs w :
  for_each msgs (fun msg => st (ev_chat_message (role msg)) ;; st (ev_markdown (content msg))) w
  = (Returned tt, logged w (rendering msgs)).
Proof.
  revert w. induction msgs as [|m msgs IH]; intros w.
  - simpl. by rewrite logged_nil.
  - cbn [for_each]. step. rewrite IH. unfold logged, rendering; simpl.
    by rewrite <- !app_assoc.
Qed.

Lemma init_chat_engine_run E ix w :
  init_chat_engine E ix w =
  match chat_engine (session w) with
  | Some _ => (Returned tt, w)
  | None =>
      let w1 := logged w [ev_as_chat_engine ix "context" SYSTEM_PROMPT] in
      match as_chat_engine E ix "context" SYSTEM_PROMPT with
      | Ok eng =>
          (Returned tt,
           World (proc w) (SessionState (Some eng) (messages (session w))) (log w1))
      | Fail e => (Raised e, w1)
      end
  end.
Proof.
  unfold init_chat_engine. step.
  destruct (chat_engine (session w)); [reflexivity|]. step.
  destruct (as_chat_engine E ix _ _); step; reflexivity.
Qed.

Lemma display_history_run w :
  display_history w =
  let msgs := default [greeting] (messages (session w)) in
  (Returned tt,
   World (proc w) (SessionState (chat_engine (session w)) (Some msgs))
         (log w ++ [ev_title "🍽️ RestaurantBot";
                    ev_caption "Ask me about the menu, allergens, or what's good!"]
                ++ rendering msgs)).
Proof.
  unfold display_history, session_messages.
  destruct w as [p [eng [l|]] lg]; step; rewrite for_each_render; finish.
Qed.

Lemma chat_turn_run E w l eng :
  messages (session w) = Some l ->
  chat_engine (session w) = Some eng ->
  chat_turn E w =
  let w0 := logged w [ev_chat_input the_prompt] in
  match chat_input E the_prompt with
  | None => (Returned tt, w0)
  | Some q =>
      if String.eqb q "" then (Returned tt, w0) else
      let evs := [ev_chat_input the_prompt; ev_chat_message "user"; ev_markdown q;
                  ev_chat_message "assistant"; ev_spinner "Thinking..."; ev_chat eng q] in
      match chat E eng q with
      | Fail e =>
          (Raised e,
           World (proc w) (SessionState (Some eng) (Some (l ++ [Message "user" q])))
                 (log w ++ evs))
      | Ok response =>
          (Returned tt,
           World (proc w)
                 (SessionState (Some eng)
                    (Some ((l ++ [Message "user" q]) ++ [Message "assistant" response])))
                 (log w ++ evs ++ [ev_markdown response]))
      end
  end.
Proof.
  destruct w as [p [eng' l'] lg]; simpl; intros -> ->.
  unfold chat_turn, messages_append, session_messages, session_chat_engine.
  change "What would you like to know?" with the_prompt.
  step. destruct (chat_input E the_prompt) as [q|]; simpl; [|reflexivity].
  destruct (String.eqb q ""); simpl; [reflexivity|].
  step. destruct (chat E eng q); step; rewrite <- ?app_assoc; reflexivity.
Qed.

(** ** The two halves *)

Lemma script_split E w : script E w = (startup E ≫= conversation E) w.
Proof.
  unfold script, startup, conversation.
  rewrite (bind_run (_ ≫= _)). rewrite !(bind_run page_configuration).
  destruct (page_configuration w) as [[[]|e|site] w0]; [|done..].
  rewrite (bind_run (get_api_key E)).
  destruct (get_api_key E w0) as [[k|e|site] w1] eqn:Hk;
    rewrite (bind_run (get_api_key E)), Hk; [|done..].
  rewrite (bind_run (configure_models E k)).
  destruct (configure_models E k w1) as [[[]|e|site] w2] eqn:Hc;
    rewrite (bind_run (configure_models E k)), Hc; [|done..].
  rewrite (bind_run (load_knowledge_base E)).
  by destruct (load_knowledge_base E w2) as [[ix|e|site] w3].
Qed.

Lemma load_knowledge_base_run E w :
  load_knowledge_base E w =
  match cache (proc w) with
  | Some (Some ix) => (Returned ix, w)
  | Some None => (Stopped stop_no_index, w)
  | None =>
      match load_index E (logged w [ev_spinner "Loading knowledge base... 🧠"]) with
      | (Returned (Some ix), w') =>
          (Returned ix,
           World (Process (Some (Some ix)) (Settings_llm (proc w'))
                          (Settings_embed_model (proc w')))
                 (session w') (log w'))
      | (Returned None, w') =>
          (Stopped stop_no_index,
           World (Process (Some None) (Settings_llm (proc w'))
                          (Settings_embed_model (proc w')))
                 (session w') (log w'))
      | (Raised e, w') => (Raised e, w')
      | (Stopped site, w') => (Stopped site, w')
      end
  end.
Proof.
  unfold load_knowledge_base. rewrite bind_run, cache_resource_run.
  destruct (cache (proc w)) as [[ix|]|]; try reflexivity.
  destruct (load_index E _) as [[[ix|]|e|site] w']; reflexivity.
Qed.

(** The startup half as one equation. *)
Lemma startup_run E w :
  startup E w =
  let w0 := logged w [ev_set_page_config "B-West Grill" "🍔" "centered"] in
  match secrets_lookup E "GOOGLE_API_KEY" with
  | Fail e => (Raised e, w0)
  | Ok None =>
      (Stopped stop_no_api_key,
       logged w0 [ev_error "API Key not found. Please add it to your Streamlit Secrets."])
  | Ok (Some key) =>
      match configure_models E key w0 with
      | (Returned _, w1) => load_knowledge_base E w1
      | (Raised e, w1) => (Raised e, w1)
      | (Stopped site, w1) => (Stopped site, w1)
      end
  end.
Proof.
  unfold startup. rewrite bind_run, page_configuration_run.
  rewrite bind_run, get_api_key_run.
  destruct (secrets_lookup E "GOOGLE_API_KEY") as [[key|]|e]; [|reflexivity..].
  rewrite bind_run. reflexivity.
Qed.

(** A key known to be in the store settles the lookup. *)
Ltac use_key :=
  repeat match goal with
         | Hk : secrets ?E !! ?k = Some ?v |- context [secrets_lookup ?E ?k] =>
             rewrite (secrets_lookup_key E k v Hk)
         end.

Ltac key_found :=
  repeat match goal with
         | H : secrets_lookup _ _ = Ok (Some _) |- _ => apply secrets_lookup_Some in H
         | H : secrets_lookup _ _ = Ok None |- _ => apply secrets_lookup_None in H
         end.

Ltac startup_cases :=
  rewrite startup_run; cbv zeta; use_key; cbv beta iota;
  repeat (first [ rewrite configure_models_run
                | rewrite load_knowledge_base_run
                | rewrite load_index_run
                | case_match ]; simplify_eq; key_found;
          cbn [proc session log logged cache fst snd] in * ).

Lemma startup_session E w : session (startup E w).2 = session w.
Proof. startup_cases; reflexivity. Qed.

Lemma startup_log E w :
  exists evs, log (startup E w).2 = log w ++ evs /\ forallb is_startup_event evs = true.
Proof.
  startup_cases; rewrite <- ?app_assoc; eexists; (split; [reflexivity|reflexivity]).
Qed.

Lemma startup_cache_ok E w : cache_ok (proc w) -> cache_ok (proc (startup E w).2).
Proof. unfold cache_ok. startup_cases; simpl; intros; congruence. Qed.

Lemma startup_not_stop_no_index E w :
  cache_ok (proc w) -> (startup E w).1 <> Stopped stop_no_index.
Proof. unfold cache_ok. startup_cases; simpl; intros; congruence. Qed.

Lemma truthy_Some_ne q : truthy (Some q) = negb (String.eqb q "").
Proof. reflexivity. Qed.

Ltac same_world :=
  cbv zeta; unfold heading, asking, logged; cbn [proc log session];
  try match goal with H : chat_engine _ = Some _ |- _ => rewrite H end;
  rewrite <- ?app_assoc; simpl; reflexivity.

Lemma script_shape E p s : run_shape E p s (script E (World p s [])).
Proof.
  rewrite script_split, bind_run.
  pose proof (startup_session E (World p s [])) as Hsess.
  destruct (startup E (World p s [])) as [[ix|e|site] [p1 s1 lg1]] eqn:Hs;
    [|by constructor..].
  simpl in Hsess; subst s1.
  assert (Heq : forall rw rw', run_shape E p s rw -> rw = rw' -> run_shape E p s rw')
    by (by intros ?? ? <-).
  unfold conversation. rewrite bind_run, init_chat_engine_run. cbn [session proc log logged].
  destruct (chat_engine s) as [eng|] eqn:Heng.
  - rewrite bind_run, display_history_run. cbv zeta. cbn [session proc log chat_engine messages].
    rewrite (chat_turn_run E _ (default [greeting] (messages s)) eng) by (simpl; done). cbv zeta. cbn [session proc log logged].
    destruct (chat_input E the_prompt) as [q|] eqn:Hq.
    + destruct (String.eqb q "") eqn:Hne.
      * eapply Heq; [eapply shape_idle; eauto using engine_kept|].
        { by rewrite Hq, truthy_Some_ne, Hne. }
        same_world.
      * apply String.eqb_neq in Hne.
        destruct (chat E eng q) as [a|e] eqn:Hc.
        -- eapply Heq; [eapply shape_turn; eauto using engine_kept|].
           same_world.
        -- eapply Heq; [eapply shape_turn_failed; eauto using engine_kept|].
           same_world.
    + eapply Heq; [eapply shape_idle; eauto using engine_kept|].
      { by rewrite Hq. }
      same_world.
  - destruct (as_chat_engine E ix "context" SYSTEM_PROMPT) as [eng|e] eqn:Hmk.
    2: { eapply Heq; [eapply shape_no_engine; eauto|]. reflexivity. }
    rewrite bind_run, display_history_run. cbv zeta. cbn [session proc log chat_engine messages].
    rewrite (chat_turn_run E _ (default [greeting] (messages s)) eng) by (simpl; done). cbv zeta. cbn [session proc log logged].
    destruct (chat_input E the_prompt) as [q|] eqn:Hq.
    + destruct (String.eqb q "") eqn:Hne.
      * eapply Heq; [eapply shape_idle; eauto using engine_made|].
        { by rewrite Hq, truthy_Some_ne, Hne. }
        same_world.
      * apply String.eqb_neq in Hne.
        destruct (chat E eng q) as [a|e] eqn:Hc.
        -- eapply Heq; [eapply shape_turn; eauto using engine_made|].
           same_world.
        -- eapply Heq; [eapply shape_turn_failed; eauto using engine_made|].
           same_world.
    + eapply Heq; [eapply shape_idle; eauto using engine_made|].
      { by rewrite Hq. }
      same_world.
Qed.

(** ** What the two halves log *)

Lemma forallb_rendering (P : event -> bool) l :
  (forall r, P (ev_chat_message r) = true) ->
  (forall b, P (ev_markdown b) = true) ->
  forallb P (rendering l) = true.
Proof.
  intros Hr Hb. induction l as [|m l IH]; [done|].
  unfold rendering in *; simpl. by rewrite Hr, Hb, IH.
Qed.

Lemma engine_ready_events E ix s eng evs :
  engine_ready E ix s eng evs -> forallb is_conversation_event evs = true.
Proof. by destruct 1. Qed.

Lemma conversation_events E p s :
  let rw := script E (World p s []) in
  exists evs, log rw.2 = log (startup E (World p s [])).2 ++ evs
              /\ forallb is_conversation_event evs = true.
Proof.
  cbv zeta. destruct (script_shape E p s) as
    [e w1 Hs|site w1 Hs|ix w1 e Hs|ix w1 eng evs Hs Hr|ix w1 eng evs q a Hs Hr|ix w1 eng evs q e Hs Hr];
    rewrite Hs; cbn [fst snd log].
  - exists []. by rewrite app_nil_r.
  - exists []. by rewrite app_nil_r.
  - eexists; split; [reflexivity|done].
  - eexists; split; [reflexivity|]. unfold heading.
    rewrite !forallb_app, (engine_ready_events _ _ _ _ _ Hr), forallb_rendering; done.
  - eexists; split; [reflexivity|]. unfold heading.
    rewrite !forallb_app, (engine_ready_events _ _ _ _ _ Hr), forallb_rendering; done.
  - eexists; split; [reflexivity|]. unfold heading.
    rewrite !forallb_app, (engine_ready_events _ _ _ _ _ Hr), forallb_rendering; done.
Qed.

Lemma forallb_weaken (P Q : event -> bool) l :
  (forall ev, P ev = true -> Q ev = true) -> forallb P l = true -> forallb Q l = true.
Proof. rewrite !forallb_forall. auto. Qed.

Lemma startup_uses_key E w key :
  secrets E !! "GOOGLE_API_KEY" = Some key ->
  exists evs, log (startup E w).2 =
                log w ++ the_page :: ev_GoogleGenAI "models/gemini-1.5-flash" key :: evs
              /\ forallb (uses_key key) evs = true.
Proof.
  intros Hk. startup_cases; rewrite <- ?app_assoc; simpl;
    eexists; (split; [reflexivity|]); simpl; rewrite ?String.eqb_refl; reflexivity.
Qed.

(** What the credential check comes to, by what reading [st.secrets]
    gives.  When the read raises, the execution ends with that exception.
    When the store is there without the key, the execution stops at line 26
    after exactly one error display: the process and the session are
    untouched, and neither a network call nor a call of the index loader
    was made.  With the key, its value is what the first client constructor
    receives, and no client constructor receives anything else. *)
Lemma credential_check E p s :
  let rw := script E (World p s []) in
  match secrets_lookup E "GOOGLE_API_KEY" with
  | Fail e =>
      rw = (Raised e, World p s [the_page])
  | Ok None =>
      rw = (Stopped stop_no_api_key, World p s [the_page; ev_error no_key_message])
      /\ count_events is_error (log rw.2) = 1
      /\ count_events is_network_call (log rw.2) = 0
      /\ count_events is_index_io (log rw.2) = 0
  | Ok (Some key) =>
      (exists evs, log rw.2 = the_page :: ev_GoogleGenAI "models/gemini-1.5-flash" key :: evs)
      /\ forallb (uses_key key) (log rw.2) = true
  end.
Proof.
  cbv zeta. destruct (secrets_lookup E "GOOGLE_API_KEY") as [[key|]|e] eqn:Hk.
  - apply secrets_lookup_Some in Hk.
    destruct (conversation_events E p s) as (evs2 & -> & Hconv).
    destruct (startup_uses_key E (World p s []) key Hk) as (evs1 & -> & Hkey).
    cbn [log app]. split; [eauto|].
    cbn [forallb uses_key the_page].
    rewrite String.eqb_refl, forallb_app, Hkey.
    rewrite (forallb_weaken is_conversation_event (uses_key key) evs2); [done| |done].
    by intros [].
  - assert (Hrun : script E (World p s [])
                   = (Stopped stop_no_api_key, World p s [the_page; ev_error no_key_message])).
    { rewrite script_split, bind_run, startup_run, Hk. reflexivity. }
    rewrite Hrun. done.
  - rewrite script_split, bind_run, startup_run, Hk. reflexivity.
Qed.

(** C3: the claim says that an execution without the credential stops after
    exactly one error display.  That is what happens when the secret store
    is there and lacks the key.  When no secrets file exists at all, which
    is how the credential is absent wherever no secret was ever saved, the
    membership test of line 22 itself raises: the execution ends with
    [StreamlitSecretNotFoundError], it never gets to lines 25 and 26, and
    the error display the script has for this case is not shown. *)
Theorem missing_secrets_file_raises :
  st_secrets E_no_secrets_file = Fail StreamlitSecretNotFoundError
  /\ secrets E_no_secrets_file !! "GOOGLE_API_KEY" = None
  /\ script E_no_secrets_file fresh_world
     = (Raised StreamlitSecretNotFoundError,
        World initial_process new_session [the_page])
  /\ count_events is_error (log (script E_no_secrets_file fresh_world).2) = 0
  /\ script E_no_key fresh_world
     = (Stopped stop_no_api_key,
        World initial_process new_session [the_page; ev_error no_key_message]).
Proof.
  split; [reflexivity|]. split; [reflexivity|].
  assert (Hrun : script E_no_secrets_file fresh_world
                 = (Raised StreamlitSecretNotFoundError,
                    World initial_process new_session [the_page]))
    by exact (credential_check E_no_secrets_file initial_process new_session).
  split; [exact Hrun|]. split; [by rewrite Hrun|].
  exact (proj1 (credential_check E_no_key initial_process new_session)).
Qed.

(** ** The index loader *)

Lemma load_index_storage_missing E w :
  path_exists E PERSIST_DIR = false ->
  load_index E w =
  (Raised (NameError "SimpleDirectoryReader"),
   logged w [ev_path_exists PERSIST_DIR;
             ev_print "Storage not found. Rebuilding index..."]).
Proof. intros H. by rewrite load_index_run, H. Qed.

Lemma load_index_storage_present E w sc ix :
  path_exists E PERSIST_DIR = true ->
  from_defaults E PERSIST_DIR = Ok sc ->
  load_index_from_storage E sc = Ok ix ->
  load_index E w =
  (Returned (Some ix),
   logged w [ev_path_exists PERSIST_DIR; ev_from_defaults PERSIST_DIR;
             ev_load_index_from_storage sc]).
Proof.
  intros H1 H2 H3. rewrite load_index_run, H1, H2, H3. cbv zeta.
  unfold logged; simpl. by rewrite <- app_assoc.
Qed.

(** C1: the claim says that without [./storage] the index is built from
    the menu file and the reviews, persisted and returned.  The file never
    imports [SimpleDirectoryReader] (nor [VectorStoreIndex]): on a checkout
    without [./storage], [load_index] raises [NameError] right after
    announcing the rebuild, nothing is read, built or persisted, and the
    whole execution ends with that exception. *)
Theorem load_index_rebuild_raises_NameError :
  path_exists E_no_storage PERSIST_DIR = false
  /\ existsb (String.eqb "SimpleDirectoryReader") (imports ++ builtins) = false
  /\ existsb (String.eqb "VectorStoreIndex") (imports ++ builtins) = false
  /\ load_index E_no_storage fresh_world =
     (Raised (NameError "SimpleDirectoryReader"),
      World initial_process new_session
            [ev_path_exists PERSIST_DIR;
             ev_print "Storage not found. Rebuilding index..."])
  /\ script E_no_storage fresh_world =
     (Raised (NameError "SimpleDirectoryReader"),
      World (Process None (Some (LLM 1)) (Some (Embedding 2))) new_session
            [the_page; ev_GoogleGenAI gemini "AIza-demo";
             ev_GoogleGenAIEmbedding embedding_001 "AIza-demo"; loading;
             ev_path_exists PERSIST_DIR;
             ev_print "Storage not found. Rebuilding index..."])
  /\ count_events is_index_io
       (log (script E_no_storage fresh_world).2) = 1.
Proof.
  split; [reflexivity|]. split; [reflexivity|]. split; [reflexivity|].
  split; [exact (load_index_storage_missing E_no_storage fresh_world eq_refl)|].
  split; vm_compute; reflexivity.
Qed.

Lemma load_index_returns_index E w : (load_index E w).1 <> Returned None.
Proof.
  rewrite load_index_run.
  repeat case_match; simpl; congruence.
Qed.

Lemma script_proc E p s :
  proc (script E (World p s [])).2 = proc (startup E (World p s [])).2.
Proof.
  destruct (script_shape E p s) as
    [e w1 Hs|site w1 Hs|ix w1 e Hs|ix w1 eng evs Hs Hr|ix w1 eng evs q a Hs Hr|ix w1 eng evs q e Hs Hr];
    by rewrite Hs.
Qed.

Lemma script_cache_ok E p s :
  cache_ok p -> cache_ok (proc (script E (World p s [])).2).
Proof. intros H. rewrite script_proc. by apply startup_cache_ok. Qed.

Lemma script_not_stop_no_index E p s :
  cache_ok p -> (script E (World p s [])).1 <> Stopped stop_no_index.
Proof.
  intros H. pose proof (startup_not_stop_no_index E (World p s []) H) as Hn.
  destruct (script_shape E p s) as
    [e w1 Hs|site w1 Hs|ix w1 e Hs|ix w1 eng evs Hs Hr|ix w1 eng evs q a Hs Hr|ix w1 eng evs q e Hs Hr];
    simpl; try congruence.
  rewrite Hs in Hn. simpl in Hn. congruence.
Qed.

Lemma serve_cache_ok reqs sv :
  cache_ok (srv_process sv) ->
  cache_ok (srv_process (serve reqs sv).2)
  /\ Forall (fun r => run_result r <> Stopped stop_no_index) (serve reqs sv).1.
Proof.
  revert sv. induction reqs as [|[sid E] reqs IH]; intros sv Hok; simpl.
  - split; [done|constructor].
  - destruct (IH (rerun sid E sv).2) as [H1 H2].
    { simpl. by apply script_cache_ok. }
    split; [done|]. constructor; [|done].
    simpl. by apply script_not_stop_no_index.
Qed.

(** C10: [load_index] never returns [None]: it returns an index or raises;
    so does its cached wrapper on a process whose cache was filled by it;
    and no execution served from the initial process stops at the guard of
    line 94. *)
Theorem load_index_never_returns_None :
  (forall E w, (load_index E w).1 <> Returned None)
  /\ (forall E w, cache_ok (proc w) ->
        (cache_resource "Loading knowledge base... 🧠" (load_index E) w).1 <> Returned None)
  /\ (forall reqs,
        Forall (fun r => run_result r <> Stopped stop_no_index)
               (serve reqs initial_server).1).
Proof.
  split; [exact load_index_returns_index|]. split.
  - intros E w Hok. rewrite cache_resource_run.
    destruct (cache (proc w)) as [[ix|]|] eqn:Hc; simpl; [congruence|by destruct Hok|].
    pose proof (load_index_returns_index E (logged w [ev_spinner "Loading knowledge base... 🧠"])) as Hn.
    destruct (load_index E _) as [[[ix|]|e|site] w']; simpl in *; congruence.
  - intros reqs. apply serve_cache_ok. unfold cache_ok. simpl. congruence.
Qed.

(** ** Client construction *)

Lemma count_events_app f l1 l2 :
  count_events f (l1 ++ l2) = count_events f l1 + count_events f l2.
Proof. unfold count_events. by rewrite List.filter_app, length_app. Qed.

Lemma count_events_none (P Q : event -> bool) l :
  (forall ev, P ev = true -> Q ev = false) ->
  forallb P l = true -> count_events Q l = 0.
Proof.
  intros HPQ. unfold count_events. induction l as [|ev l IH]; simpl; [done|].
  intros [Hev Hl]%andb_prop. rewrite (HPQ ev Hev). auto.
Qed.

Lemma conversation_no_error E p s :
  count_events is_error (log (script E (World p s [])).2)
  = count_events is_error (log (startup E (World p s [])).2).
Proof.
  destruct (conversation_events E p s) as (evs & -> & Hconv).
  rewrite count_events_app, (count_events_none is_conversation_event is_error evs); auto.
  by intros [].
Qed.

(** Process and log left by a startup that got through. *)
Lemma startup_returned E w ix w1 :
  startup E w = (Returned ix, w1) ->
  exists key llm em,
    secrets E !! "GOOGLE_API_KEY" = Some key
    /\ GoogleGenAI E gemini key = Ok llm
    /\ GoogleGenAIEmbedding E embedding_001 key = Ok em
    /\ cache (proc w1) = Some (Some ix)
    /\ Settings_llm (proc w1) = Some llm
    /\ Settings_embed_model (proc w1) = Some em
    /\ count_events is_error (log w1) = count_events is_error (log w).
Proof.
  unfold gemini, embedding_001.
  startup_cases; intros; simplify_eq; cbn [proc cache Settings_llm Settings_embed_model log];
    (do 3 eexists; repeat split; try done);
    rewrite <- ?app_assoc, count_events_app; unfold count_events; simpl; lia.
Qed.

(** What the construction of the two clients comes to, by the answers of the
    constructors. *)
Lemma client_setup_outcomes E p s key :
  secrets E !! "GOOGLE_API_KEY" = Some key ->
  let rw := script E (World p s []) in
  (forall e, GoogleGenAI E gemini key = Fail e ->
     if isinstance_Exception e then
       rw = (Stopped stop_client_setup,
             World p s [the_page; ev_GoogleGenAI gemini key; ev_error (setup_message e)])
     else
       rw = (Raised e, World p s [the_page; ev_GoogleGenAI gemini key]))
  /\ (forall llm e,
        GoogleGenAI E gemini key = Ok llm ->
        GoogleGenAIEmbedding E embedding_001 key = Fail e ->
        let p1 := Process (cache p) (Some llm) (Settings_embed_model p) in
        if isinstance_Exception e then
          rw = (Stopped stop_client_setup,
                World p1 s [the_page; ev_GoogleGenAI gemini key;
                            ev_GoogleGenAIEmbedding embedding_001 key;
                            ev_error (setup_message e)])
        else
          rw = (Raised e,
                World p1 s [the_page; ev_GoogleGenAI gemini key;
                            ev_GoogleGenAIEmbedding embedding_001 key]))
  /\ (forall llm em,
        GoogleGenAI E gemini key = Ok llm ->
        GoogleGenAIEmbedding E embedding_001 key = Ok em ->
        cache_ok p ->
        (rw.1 = Returned tt \/ exists e, rw.1 = Raised e)
        /\ count_events is_error (log rw.2) = 0).
Proof.
  intros Hk rw. subst rw. unfold gemini, embedding_001, setup_message, the_page.
  split; [|split].
  - intros e He. rewrite script_split, bind_run, startup_run, (secrets_lookup_key _ _ _ Hk). cbv zeta.
    rewrite configure_models_run, He. cbv zeta.
    destruct (isinstance_Exception e); reflexivity.
  - intros llm e Hl He. rewrite script_split, bind_run, startup_run, (secrets_lookup_key _ _ _ Hk). cbv zeta.
    rewrite configure_models_run, Hl, He. cbv zeta.
    destruct (isinstance_Exception e); reflexivity.
  - intros llm em Hl He Hok. rewrite conversation_no_error.
    pose proof (startup_not_stop_no_index E (World p s []) Hok) as Hns.
    assert (Hstart : forall site, (startup E (World p s [])).1 <> Stopped site
                     /\ count_events is_error (log (startup E (World p s [])).2) = 0).
    { intros site. revert Hns. rewrite startup_run, (secrets_lookup_key _ _ _ Hk). cbv zeta.
      rewrite configure_models_run, Hl, He. cbv beta iota zeta.
      rewrite load_knowledge_base_run. cbn [proc cache logged log session].
      repeat (first [rewrite load_index_run | case_match]; simplify_eq;
              cbn [proc session log logged cache fst snd] in * );
        intros; split; try congruence; reflexivity. }
    split; [|apply (Hstart stop_no_index)].
    destruct (script_shape E p s) as
      [e w1 Hs|site w1 Hs|ix w1 e Hs|ix w1 eng evs Hs Hr|ix w1 eng evs q a Hs Hr|ix w1 eng evs q e Hs Hr];
      simpl; eauto.
    destruct (Hstart site) as [Hn _]. rewrite Hs in Hn. by destruct Hn.
Qed.

(** C4, counterexample: a [KeyboardInterrupt] raised while the generation
    client is constructed is not caught: no error is displayed and the
    execution ends with the exception, not with a stop. *)
Theorem interrupted_client_setup_is_not_caught :
  GoogleGenAI E_interrupt gemini "AIza-demo" = Fail KeyboardInterrupt
  /\ script E_interrupt fresh_world =
     (Raised KeyboardInterrupt,
      World initial_process new_session [the_page; ev_GoogleGenAI gemini "AIza-demo"])
  /\ count_events is_error (log (script E_interrupt fresh_world).2) = 0
  /\ ~ (forall E p s key e,
          secrets E !! "GOOGLE_API_KEY" = Some key ->
          GoogleGenAI E gemini key = Fail e ->
          (script E (World p s [])).1 = Stopped stop_client_setup).
Proof.
  assert (Hrun : script E_interrupt fresh_world =
            (Raised KeyboardInterrupt,
             World initial_process new_session
                   [the_page; ev_GoogleGenAI gemini "AIza-demo"]))
    by (vm_compute; reflexivity).
  split; [reflexivity|]. split; [exact Hrun|]. split; [by rewrite Hrun|].
  intros Hall.
  specialize (Hall E_interrupt initial_process new_session "AIza-demo"
                   KeyboardInterrupt eq_refl eq_refl).
  change (World initial_process new_session []) with fresh_world in Hall.
  rewrite Hrun in Hall. discriminate Hall.
Qed.

(** ** The cache *)

Lemma cache_resource_fills E sp w v w1 :
  cache_resource sp (load_index E) w = (Returned v, w1) ->
  cache (proc w1) = Some v.
Proof.
  rewrite cache_resource_run.
  destruct (cache (proc w)) as [v0|] eqn:Hc.
  - by intros [= <- <-].
  - destruct (load_index E _) as [[v0|e|site] w']; [|done..].
    by intros [= <- <-].
Qed.

Lemma cache_resource_hit E sp w v :
  cache (proc w) = Some v ->
  cache_resource sp (load_index E) w = (Returned v, w).
Proof. intros H. by rewrite cache_resource_run, H. Qed.

(** With a filled cache, startup leaves the cache alone and makes no call
    of [load_index]. *)
Lemma startup_cached E w v :
  cache (proc w) = Some v ->
  cache (proc (startup E w).2) = Some v
  /\ exists evs, log (startup E w).2 = log w ++ evs
                 /\ count_events is_index_io evs = 0.
Proof.
  intros Hc. rewrite startup_run. cbv zeta.
  repeat (first [ rewrite configure_models_run
                | rewrite load_knowledge_base_run
                | case_match ]; simplify_eq;
          cbn [proc session log logged cache fst snd] in * );
    try congruence;
    (split; [done|]); rewrite <- ?app_assoc; eexists; (split; [reflexivity|reflexivity]).
Qed.

Lemma script_cached E p s v :
  cache p = Some v ->
  cache (proc (script E (World p s [])).2) = Some v
  /\ count_events is_index_io (log (script E (World p s [])).2) = 0.
Proof.
  intros Hc. rewrite script_proc.
  destruct (startup_cached E (World p s []) v Hc) as (Hc' & evs1 & Hlog & Hio).
  split; [done|].
  destruct (conversation_events E p s) as (evs2 & -> & Hconv).
  rewrite Hlog. simpl. rewrite count_events_app, Hio.
  rewrite (count_events_none is_conversation_event is_index_io evs2); auto.
  by intros [].
Qed.

Lemma serve_cached reqs sv v :
  cache (srv_process sv) = Some v ->
  cache (srv_process (serve reqs sv).2) = Some v
  /\ Forall (fun r => count_events is_index_io (run_log r) = 0) (serve reqs sv).1.
Proof.
  revert sv. induction reqs as [|[sid E] reqs IH]; intros sv Hc; simpl.
  - split; [done|constructor].
  - destruct (script_cached E (srv_process sv)
                (default new_session (srv_sessions sv !! sid)) v Hc) as [H1 H2].
    destruct (IH (rerun sid E sv).2 H1) as [H3 H4].
    split; [done|]. by constructor.
Qed.

(** C6: once a call of the cached [load_index] has returned, every later
    call in a process with that cache returns the same index without making
    any call and without changing anything, whatever the file system has
    become; and no execution served afterwards makes a call of the index
    loader. *)
Theorem load_index_memoized E1 sp w v w1 :
  cache_resource sp (load_index E1) w = (Returned v, w1) ->
  (forall E2 w2, cache (proc w2) = cache (proc w1) ->
                 cache_resource sp (load_index E2) w2 = (Returned v, w2))
  /\ (forall reqs sv,
        cache (srv_process sv) = cache (proc w1) ->
        cache (srv_process (serve reqs sv).2) = Some v
        /\ Forall (fun r => count_events is_index_io (run_log r) = 0)
                  (serve reqs sv).1).
Proof.
  intros Hfirst. apply cache_resource_fills in Hfirst. split.
  - intros E2 w2 Hsame. apply cache_resource_hit. congruence.
  - intros reqs sv Hsame. apply serve_cached. congruence.
Qed.

(** ** A failing chat call *)

Lemma classified_elem (P : event -> bool) ev l :
  forallb P l = true -> ev ∈ l -> P ev = true.
Proof. rewrite forallb_forall, list_elem_of_In. auto. Qed.

Lemma heading_no_chat l : forallb (fun ev => negb (is_chat_call ev)) (heading l) = true.
Proof. unfold heading. by rewrite !forallb_app, forallb_rendering. Qed.

Lemma startup_no_chat E w ev :
  is_startup_event ev = false -> ev ∈ log (startup E w).2 -> ev ∈ log w.
Proof.
  intros Hev. destruct (startup_log E w) as (evs & -> & Hevs).
  intros [H|H]%elem_of_app; [done|].
  apply (classified_elem _ _ _ Hevs) in H. congruence.
Qed.

Lemma engine_ready_no_chat E ix s eng evs eng' q :
  engine_ready E ix s eng evs -> ev_chat eng' q ∉ evs.
Proof.
  destruct 1; intros Hin; [by apply elem_of_nil in Hin|].
  by apply list_elem_of_singleton in Hin.
Qed.

Lemma heading_not_chat l eng q : ev_chat eng q ∉ heading l.
Proof. intros H. by apply (classified_elem _ _ _ (heading_no_chat l)) in H. Qed.

Lemma asking_chat eng q eng' q' :
  ev_chat eng' q' ∈ asking eng q -> eng' = eng /\ q' = q.
Proof.
  unfold asking. rewrite !elem_of_cons, elem_of_nil.
  intros [?|[?|[?|[?|[?|[]]]]]]; simplify_eq. done.
Qed.

(** An execution that reached the chat call: what it did, by the answer. *)
Lemma chat_in_log E p s eng q :
  ev_chat eng q ∈ log (script E (World p s [])).2 ->
  exists ix w1 evs,
    startup E (World p s []) = (Returned ix, w1)
    /\ engine_ready E ix s eng evs
    /\ chat_input E the_prompt = Some q /\ q <> ""
    /\ let l := default [greeting] (messages s) in
       script E (World p s []) =
       match chat E eng q with
       | Ok response =>
           (Returned tt,
            World (proc w1)
                  (SessionState (Some eng)
                     (Some (l ++ [Message "user" q; Message "assistant" response])))
                  (log w1 ++ evs ++ heading l ++ asking eng q ++ [ev_markdown response]))
       | Fail e =>
           (Raised e,
            World (proc w1)
                  (SessionState (Some eng) (Some (l ++ [Message "user" q])))
                  (log w1 ++ evs ++ heading l ++ asking eng q))
       end.
Proof.
  pose proof (startup_no_chat E (World p s []) (ev_chat eng q) eq_refl) as Hst.
  destruct (script_shape E p s) as
    [e w1 Hs|site w1 Hs|ix w1 e Hs|ix w1 eng0 evs Hs Hr|ix w1 eng0 evs q0 a Hs Hr Hq Hne Hc
    |ix w1 eng0 evs q0 e Hs Hr Hq Hne Hc];
    rewrite Hs in Hst; cbn [fst snd log] in *; intros Hin.
  - by apply Hst, elem_of_nil in Hin.
  - by apply Hst, elem_of_nil in Hin.
  - apply elem_of_app in Hin as [Hin|Hin]; [by apply Hst, elem_of_nil in Hin|].
    by apply list_elem_of_singleton in Hin.
  - rewrite !elem_of_app in Hin. destruct Hin as [Hin|[Hin|Hin]].
    + by apply Hst, elem_of_nil in Hin.
    + by apply (engine_ready_no_chat _ _ _ _ _ _ _ Hr) in Hin.
    + by apply heading_not_chat in Hin.
  - rewrite !elem_of_app in Hin. destruct Hin as [Hin|[Hin|[Hin|[Hin|Hin]]]].
    + by apply Hst, elem_of_nil in Hin.
    + by apply (engine_ready_no_chat _ _ _ _ _ _ _ Hr) in Hin.
    + by apply heading_not_chat in Hin.
    + apply asking_chat in Hin as [-> ->].
      exists ix, w1, evs. rewrite Hc. done.
    + by apply list_elem_of_singleton in Hin.
  - rewrite !elem_of_app in Hin. destruct Hin as [Hin|[Hin|[Hin|Hin]]].
    + by apply Hst, elem_of_nil in Hin.
    + by apply (engine_ready_no_chat _ _ _ _ _ _ _ Hr) in Hin.
    + by apply heading_not_chat in Hin.
    + apply asking_chat in Hin as [-> ->].
      exists ix, w1, evs. rewrite Hc. done.
Qed.

Lemma startup_count E w (Q : event -> bool) :
  (forall ev, is_startup_event ev = true -> Q ev = false) ->
  count_events Q (log (startup E w).2) = count_events Q (log w).
Proof.
  intros HQ. destruct (startup_log E w) as (evs & -> & Hevs).
  rewrite count_events_app, (count_events_none is_startup_event Q evs); auto.
Qed.

Lemma engine_ready_count E ix s eng evs (Q : event -> bool) :
  (forall i m sp, Q (ev_as_chat_engine i m sp) = false) ->
  engine_ready E ix s eng evs -> count_events Q evs = 0.
Proof. intros HQ. destruct 1; [done|]. unfold count_events; simpl. by rewrite HQ. Qed.

(** C5: when the chat call of a turn raises, the execution ends with that
    very exception: the chat call was made once, it is the last thing the
    execution did, and no error was displayed. *)
Theorem chat_failure_propagates E p s eng q e :
  let rw := script E (World p s []) in
  ev_chat eng q ∈ log rw.2 ->
  chat E eng q = Fail e ->
  rw.1 = Raised e
  /\ count_events is_chat_call (log rw.2) = 1
  /\ last (log rw.2) = Some (ev_chat eng q)
  /\ count_events is_error (log rw.2) = 0.
Proof.
  cbv zeta. intros Hin Hfail.
  rewrite conversation_no_error.
  destruct (chat_in_log E p s eng q Hin) as (ix & w1 & evs & Hs & Hr & Hq & Hne & Hrun).
  cbv zeta in Hrun. rewrite Hfail in Hrun. rewrite Hrun. cbn [fst snd log].
  pose proof (startup_count E (World p s []) is_chat_call) as Hc1.
  pose proof (startup_returned E _ _ _ Hs) as (key & llm & em & _ & _ & _ & _ & _ & _ & He).
  rewrite Hs in Hc1 |- *. cbn [fst snd log] in *.
  split; [done|]. split; [|split; [|done]].
  - rewrite !count_events_app, Hc1 by (by intros []).
    rewrite (engine_ready_count E ix s eng evs is_chat_call (fun _ _ _ => eq_refl) Hr).
    rewrite (count_events_none _ is_chat_call _ (fun ev => proj1 (negb_true_iff _)) (heading_no_chat _)).
    reflexivity.
  - unfold asking. rewrite !app_assoc.
    change [ev_chat_message "user"; ev_markdown q; ev_chat_message "assistant";
            ev_spinner "Thinking..."; ev_chat eng q]
      with ([ev_chat_message "user"; ev_markdown q; ev_chat_message "assistant";
             ev_spinner "Thinking..."] ++ [ev_chat eng q]).
    rewrite app_assoc. apply last_snoc.
Qed.

(** C9: when the chat call of a turn raises, the transcript is left with
    the user message at its end and no answer after it; it differs from the
    transcript before the turn, and its length is no longer odd. *)
Theorem failed_turn_keeps_user_message E p s eng q e :
  let rw := script E (World p s []) in
  let l := default [greeting] (messages s) in
  ev_chat eng q ∈ log rw.2 ->
  chat E eng q = Fail e ->
  rw.1 = Raised e
  /\ messages (session rw.2) = Some (l ++ [Message "user" q])
  /\ messages (session rw.2) <> messages s
  /\ (forall n, length l = 1 + 2 * n ->
        forall m, length (l ++ [Message "user" q]) <> 1 + 2 * m).
Proof.
  cbv zeta. intros Hin Hfail.
  destruct (chat_in_log E p s eng q Hin) as (ix & w1 & evs & Hs & Hr & Hq & Hne & Hrun).
  cbv zeta in Hrun. rewrite Hfail in Hrun. rewrite Hrun. cbn [fst snd session messages].
  split; [done|]. split; [done|]. split.
  - destruct (messages s) as [l|]; [|done]. simpl. intros [= Heq].
    apply (f_equal length) in Heq. rewrite length_app in Heq. simpl in Heq. lia.
  - intros n Hn m. rewrite length_app. simpl. lia.
Qed.

(** ** The shape of the transcript *)

(** The transcript an execution leaves, by what happened in it. *)
Lemma script_messages E p s :
  let rw := script E (World p s []) in
  let l := default [greeting] (messages s) in
  (completes E rw.1 = false /\ messages (session rw.2) = messages s)
  \/ (completes E rw.1 = false /\ rw.1 = Returned tt
      /\ messages (session rw.2) = Some l)
  \/ (exists q response,
        completes E rw.1 = true
        /\ messages (session rw.2)
           = Some (l ++ [Message "user" q; Message "assistant" response]))
  \/ (exists eng q e,
        chat E eng q = Fail e /\ rw.1 = Raised e
        /\ messages (session rw.2) = Some (l ++ [Message "user" q])).
Proof.
  pose proof (startup_session E (World p s [])) as Hsess.
  destruct (script_shape E p s) as
    [e w1 Hs|site w1 Hs|ix w1 e Hs|ix w1 eng evs Hs Hr Hq|ix w1 eng evs q a Hs Hr Hq Hne Hc
    |ix w1 eng evs q e Hs Hr Hq Hne Hc];
    rewrite Hs in Hsess; cbn [fst snd session messages completes] in *.
  - left. by rewrite Hsess.
  - left. by rewrite Hsess.
  - by left.
  - right; left. by rewrite Hq.
  - right; right; left. exists q, a. split; [|done].
    rewrite Hq. simpl. by apply negb_true_iff, String.eqb_neq.
  - right; right; right. by exists eng, q, e.
Qed.

Lemma alternating_seed : alternating [greeting].
Proof. intros [|i] m; simpl; [by intros [= <-]|done]. Qed.

Lemma alternating_turn l n q response :
  length l = 1 + 2 * n -> alternating l ->
  alternating (l ++ [Message "user" q; Message "assistant" response]).
Proof.
  intros Hlen Halt i m Hi.
  destruct (decide (i < length l)) as [Hlt|Hge].
  - rewrite lookup_app_l in Hi by done. by apply Halt.
  - rewrite lookup_app_r in Hi by lia.
    destruct (i - length l) as [|[|k]] eqn:Hk; simpl in Hi; simplify_eq; simpl.
    + replace i with (S (2 * n)) by lia. by rewrite Nat.even_succ, Nat.odd_mul.
    + replace i with (2 * (S n)) by lia. by rewrite Nat.even_mul.
Qed.

Lemma transcript_inv_seed : transcript_inv 0 [greeting].
Proof. repeat split. apply alternating_seed. Qed.

Lemma transcript_inv_turn n l q response :
  transcript_inv n l ->
  transcript_inv (n + 1) (l ++ [Message "user" q; Message "assistant" response]).
Proof.
  intros (Hhd & Hlen & Halt). repeat split.
  - destruct l; [done|]. done.
  - rewrite length_app. simpl. lia.
  - by apply (alternating_turn l n).
Qed.

Lemma session_inv_default n o :
  session_inv n o -> transcript_inv n (default [greeting] o).
Proof. destruct o; simpl; [done|]. intros ->. apply transcript_inv_seed. Qed.

Lemma script_session_inv E p s n :
  chat_succeeds E ->
  session_inv n (messages s) ->
  let rw := script E (World p s []) in
  session_inv (n + (if completes E rw.1 then 1 else 0)) (messages (session rw.2)).
Proof.
  intros Hchat Hinv. cbv zeta.
  destruct (script_messages E p s) as
    [[-> ->]|[(-> & _ & ->)|[(q & a & -> & ->)|(eng & q & e & Hc & _)]]].
  - by rewrite Nat.add_0_r.
  - rewrite Nat.add_0_r. by apply session_inv_default.
  - by apply transcript_inv_turn, session_inv_default.
  - destruct (Hchat eng q) as [a Ha]. congruence.
Qed.

Lemma completed_turn_completes r :
  completed_turn r = completes (run_env r) (run_result r).
Proof. reflexivity. Qed.

Lemma transcript_of_session sv sid :
  transcript_of sv sid = messages (session_of sv sid).
Proof.
  unfold transcript_of, session_of. by destruct (srv_sessions sv !! sid).
Qed.

Lemma engine_of_session sv sid :
  engine_of sv sid = chat_engine (session_of sv sid).
Proof.
  unfold engine_of, session_of. by destruct (srv_sessions sv !! sid).
Qed.

Lemma session_of_rerun sid' E sv sid :
  session_of (rerun sid' E sv).2 sid =
  if decide (sid' = sid)
  then session (script E (World (srv_process sv) (session_of sv sid) [])).2
  else session_of sv sid.
Proof.
  unfold session_of, rerun. cbn [snd srv_sessions].
  destruct (decide (sid' = sid)) as [->|Hne].
  - by rewrite lookup_insert_eq.
  - by rewrite lookup_insert_ne.
Qed.

Lemma serve_transcripts reqs : forall sv sid n,
  Forall (fun req => req.1 = sid -> chat_succeeds req.2) reqs ->
  session_inv n (transcript_of sv sid) ->
  session_inv (n + completed_turns sid (serve reqs sv).1)
              (transcript_of (serve reqs sv).2 sid).
Proof.
  induction reqs as [|[sid' E] reqs IH]; intros sv sid n Hok Hinv.
  - simpl. by rewrite Nat.add_0_r.
  - apply Forall_cons in Hok as [HE Hok]. simpl in HE.
    cbn [serve fst snd completed_turns].
    rewrite Nat.add_assoc. apply IH; [done|].
    rewrite transcript_of_session, session_of_rerun.
    rewrite transcript_of_session in Hinv.
    cbn [rerun fst run_sid]. rewrite completed_turn_completes. cbn [run_env run_result].
    destruct (decide (sid' = sid)) as [->|Hne].
    + rewrite Nat.eqb_refl. cbn [andb]. fold (session_of sv sid).
      by apply script_session_inv; [apply HE|].
    + apply Nat.eqb_neq in Hne. rewrite Hne. cbn [andb]. by rewrite Nat.add_0_r.
Qed.

(** C2: when every chat call of a session succeeds, its transcript after [n]
    completed turns starts with the greeting, has [1 + 2 * n] messages, has
    the assistant at the even positions and the user at the odd ones, and
    has no other role. *)
Theorem transcript_after_completed_turns reqs sid l :
  Forall (fun req => req.1 = sid -> chat_succeeds req.2) reqs ->
  transcript_of (serve reqs initial_server).2 sid = Some l ->
  let n := completed_turns sid (serve reqs initial_server).1 in
  head l = Some greeting
  /\ length l = 1 + 2 * n
  /\ (forall i m, l !! i = Some m ->
        role m = if Nat.even i then "assistant" else "user")
  /\ Forall (fun m => role m = "user" \/ role m = "assistant") l.
Proof.
  intros Hok Hl n.
  pose proof (serve_transcripts reqs initial_server sid 0 Hok eq_refl) as H.
  rewrite Hl in H. simpl in H.
  destruct H as (Hhd & Hlen & Halt). repeat split; try done.
  apply Forall_lookup. intros i m Hi. rewrite (Halt i m Hi).
  destruct (Nat.even i); auto.
Qed.

(** ** The transcript only grows *)

Lemma messages_append_run m w l :
  messages (session w) = Some l ->
  messages_append m w =
  (Returned tt, World (proc w) (SessionState (chat_engine (session w)) (Some (l ++ [m])))
                      (log w)).
Proof.
  intros Hl. unfold messages_append, session_messages. step. rewrite Hl. by step.
Qed.

Lemma script_extends E p s l :
  messages s = Some l ->
  exists tail, messages (session (script E (World p s [])).2) = Some (l ++ tail).
Proof.
  intros Hl.
  destruct (script_messages E p s) as
    [[_ ->]|[(_ & _ & ->)|[(q & a & _ & ->)|(eng & q & e & _ & _ & ->)]]];
    rewrite Hl; simpl; eauto.
  - exists []. by rewrite app_nil_r.
  - exists []. by rewrite app_nil_r.
Qed.

Lemma serve_extends reqs : forall sv sid l,
  transcript_of sv sid = Some l ->
  exists tail, transcript_of (serve reqs sv).2 sid = Some (l ++ tail).
Proof.
  induction reqs as [|[sid' E] reqs IH]; intros sv sid l Hl.
  - exists []. simpl. by rewrite app_nil_r.
  - cbn [serve snd].
    assert (exists t1, transcript_of (rerun sid' E sv).2 sid = Some (l ++ t1)) as [t1 H1].
    { rewrite transcript_of_session, session_of_rerun.
      rewrite transcript_of_session in Hl.
      destruct (decide (sid' = sid)) as [->|Hne].
      - by apply script_extends.
      - exists []. by rewrite app_nil_r. }
    destruct (IH _ _ _ H1) as [t2 H2]. exists (t1 ++ t2). by rewrite app_assoc.
Qed.

(** C8: [messages.append] puts the new message after the ones there; an
    execution, however it ends, leaves a transcript that extends the one it
    found; and whatever is served afterwards, the transcript of a session is
    a prefix of its later transcript, every message in its place. *)
Theorem transcript_append_only :
  (forall m w l,
     messages (session w) = Some l ->
     messages (session (messages_append m w).2) = Some (l ++ [m]))
  /\ (forall E p s l,
        messages s = Some l ->
        exists l', messages (session (script E (World p s [])).2) = Some l'
                   /\ l `prefix_of` l')
  /\ (forall reqs sv sid l,
        transcript_of sv sid = Some l ->
        exists l', transcript_of (serve reqs sv).2 sid = Some l'
                   /\ l `prefix_of` l'
                   /\ forall i m, l !! i = Some m -> l' !! i = Some m).
Proof.
  split; [|split].
  - intros m w l Hl. by rewrite (messages_append_run m w l Hl).
  - intros E p s l Hl. destruct (script_extends E p s l Hl) as [tail ->].
    eexists; split; [done|]. by exists tail.
  - intros reqs sv sid l Hl. destruct (serve_extends reqs sv sid l Hl) as [tail ->].
    eexists; split; [done|]. split; [by exists tail|].
    intros i m Hi. by apply lookup_app_l_Some.
Qed.

(** ** The chat engine of a session *)

Lemma heading_count l (Q : event -> bool) :
  (forall ev, is_conversation_event ev = true ->
              is_engine_creation ev = false -> is_chat_call ev = false -> Q ev = false) ->
  count_events Q (heading l) = 0.
Proof.
  intros HQ. apply (count_events_none
    (fun ev => is_conversation_event ev && negb (is_engine_creation ev)
               && negb (is_chat_call ev))).
  - intros ev [[H1 H2%negb_true_iff]%andb_prop H3%negb_true_iff]%andb_prop. auto.
  - unfold heading. by rewrite !forallb_app, forallb_rendering.
Qed.

Lemma chat_events_engine E p s eng0 eng q :
  chat_engine (session (script E (World p s [])).2) = Some eng0 ->
  ev_chat eng q ∈ log (script E (World p s [])).2 -> eng = eng0.
Proof.
  intros Heng Hin.
  destruct (chat_in_log E p s eng q Hin) as (ix & w1 & evs & _ & _ & _ & _ & Hrun).
  cbv zeta in Hrun. rewrite Hrun in Heng.
  destruct (chat E eng q); simpl in Heng; congruence.
Qed.

(** What an execution does about the engine of the session. *)
Lemma script_engine E p s :
  let rw := script E (World p s []) in
  match chat_engine s with
  | Some eng =>
      chat_engine (session rw.2) = Some eng
      /\ count_events is_engine_creation (log rw.2) = 0
  | None =>
      forall eng,
        chat_engine (session rw.2) = Some eng ->
        count_events is_engine_creation (log rw.2) = 1
        /\ exists ix, ev_as_chat_engine ix "context" SYSTEM_PROMPT ∈ log rw.2
                      /\ as_chat_engine E ix "context" SYSTEM_PROMPT = Ok eng
  end.
Proof.
  cbv zeta.
  pose proof (startup_session E (World p s [])) as Hsess.
  pose proof (startup_count E (World p s []) is_engine_creation) as Hc0.
  assert (Hh : forall l, count_events is_engine_creation (heading l) = 0)
    by (intros l; by apply heading_count).
  assert (Hready : forall ix eng evs, engine_ready E ix s eng evs ->
            match chat_engine s with
            | Some eng' => eng = eng' /\ count_events is_engine_creation evs = 0
            | None => count_events is_engine_creation evs = 1
                      /\ ev_as_chat_engine ix "context" SYSTEM_PROMPT ∈ evs
                      /\ as_chat_engine E ix "context" SYSTEM_PROMPT = Ok eng
            end).
  { intros ix eng evs [eng' Hk|eng' Hk Hmk]; rewrite Hk; [done|].
    repeat split; [apply list_elem_of_singleton; done|done]. }
  destruct (script_shape E p s) as
    [e w1 Hs|site w1 Hs|ix w1 e Hs Hk|ix w1 eng evs Hs Hr Hq|ix w1 eng evs q a Hs Hr Hq Hne Hc
    |ix w1 eng evs q e Hs Hr Hq Hne Hc];
    rewrite Hs in Hsess, Hc0; cbn [fst snd session log chat_engine] in *;
    try apply Hready in Hr.
  - rewrite Hsess, Hc0 by (by intros []).
    destruct (chat_engine s); [done|]. by intros.
  - rewrite Hsess, Hc0 by (by intros []).
    destruct (chat_engine s); [done|]. by intros.
  - rewrite Hk. by intros.
  - rewrite !count_events_app, Hc0, Hh by (by intros []).
    destruct (chat_engine s) as [eng'|].
    + destruct Hr as [-> ->]. done.
    + destruct Hr as (-> & Hin & Hmk). intros ? [= <-]. split; [done|].
      exists ix. split; [|done]. rewrite !elem_of_app. auto.
  - rewrite !count_events_app, Hc0, Hh by (by intros []).
    destruct (chat_engine s) as [eng'|].
    + destruct Hr as [-> ->]. done.
    + destruct Hr as (-> & Hin & Hmk). intros ? [= <-]. split; [done|].
      exists ix. split; [|done]. rewrite !elem_of_app. auto.
  - rewrite !count_events_app, Hc0, Hh by (by intros []).
    destruct (chat_engine s) as [eng'|].
    + destruct Hr as [-> ->]. done.
    + destruct Hr as (-> & Hin & Hmk). intros ? [= <-]. split; [done|].
      exists ix. split; [|done]. rewrite !elem_of_app. auto.
Qed.

Lemma serve_engine_kept reqs : forall sv sid eng,
  engine_of sv sid = Some eng ->
  engine_of (serve reqs sv).2 sid = Some eng
  /\ Forall (fun r => run_sid r = sid ->
               count_events is_engine_creation (run_log r) = 0
               /\ forall eng' q, ev_chat eng' q ∈ run_log r -> eng' = eng)
            (serve reqs sv).1.
Proof.
  induction reqs as [|[sid' E] reqs IH]; intros sv sid eng Heng.
  - split; [done|constructor].
  - cbn [serve fst snd].
    rewrite engine_of_session in Heng.
    pose proof (script_engine E (srv_process sv) (session_of sv sid)) as Hrun.
    cbv zeta in Hrun. rewrite Heng in Hrun. destruct Hrun as [Hkeep Hcount].
    assert (Hnext : engine_of (rerun sid' E sv).2 sid = Some eng).
    { rewrite engine_of_session, session_of_rerun. by destruct (decide (sid' = sid)) as [->|]. }
    destruct (IH _ _ _ Hnext) as [H1 H2]. split; [done|].
    constructor; [|done]. cbn [rerun fst run_sid run_log]. intros ->.
    fold (session_of sv sid). split; [done|].
    intros eng' q Hin. by apply (chat_events_engine E _ _ eng eng' q Hkeep).
Qed.


(** ** Failures after the clients are built *)

Ltac settle_answers :=
  repeat match goal with
         | H : ?x = Ok _, Hf : context [?x] |- _ => rewrite H in Hf
         | H : ?x = Fail _, Hf : context [?x] |- _ => rewrite H in Hf
         end.

(** A call of startup that fails, other than a client construction, ends
    startup with its exception, and is the last call made. *)
Lemma startup_failing_call E p s ev e :
  ev ∈ log (startup E (World p s [])).2 ->
  failure_of E ev = Some e ->
  is_client_construction ev = false ->
  (startup E (World p s [])).1 = Raised e
  /\ last (log (startup E (World p s [])).2) = Some ev.
Proof.
  startup_cases; simpl; intros Hin Hf Hnc;
    repeat (apply elem_of_cons in Hin as [->|Hin]);
    try (by apply elem_of_nil in Hin);
    simpl in Hf, Hnc; try discriminate;
    settle_answers; simpl in Hf; simplify_eq; done.
Qed.

Lemma display_never_fails E ev :
  is_conversation_event ev = true ->
  is_engine_creation ev = false -> is_chat_call ev = false ->
  failure_of E ev = None.
Proof. by destruct ev. Qed.

Lemma heading_never_fails E l ev : ev ∈ heading l -> failure_of E ev = None.
Proof.
  intros Hin.
  assert (Hf : forallb (fun ev => is_conversation_event ev
                                  && negb (is_engine_creation ev)
                                  && negb (is_chat_call ev)) (heading l) = true)
    by (unfold heading; by rewrite !forallb_app, forallb_rendering).
  apply (classified_elem _ _ _ Hf) in Hin.
  apply andb_prop in Hin as [[H1 H2%negb_true_iff]%andb_prop H3%negb_true_iff].
  by apply display_never_fails.
Qed.

Lemma asking_failure E eng q ev e :
  ev ∈ asking eng q -> failure_of E ev = Some e ->
  ev = ev_chat eng q /\ chat E eng q = Fail e.
Proof.
  unfold asking. intros Hin Hf.
  repeat (apply elem_of_cons in Hin as [->|Hin]);
    try (by apply elem_of_nil in Hin); simpl in Hf; try discriminate.
  split; [done|]. destruct (chat E eng q); simpl in Hf; congruence.
Qed.

Lemma engine_ready_never_fails E ix s eng evs ev :
  engine_ready E ix s eng evs -> ev ∈ evs -> failure_of E ev = None.
Proof.
  intros [eng' _|eng' _ Hmk] Hin; [by apply elem_of_nil in Hin|].
  apply list_elem_of_singleton in Hin as ->. simpl. by rewrite Hmk.
Qed.

(** A call that fails, other than a client construction, ends the execution
    with its exception, and is the last call the execution made. *)
Lemma failing_call_propagates E p s ev e :
  let rw := script E (World p s []) in
  ev ∈ log rw.2 ->
  failure_of E ev = Some e ->
  is_client_construction ev = false ->
  rw.1 = Raised e /\ last (log rw.2) = Some ev.
Proof.
  cbv zeta. intros Hin Hf Hnc.
  pose proof (startup_failing_call E p s ev e) as Hst.
  destruct (script_shape E p s) as
    [e0 w1 Hs|site w1 Hs|ix w1 e0 Hs Hk Hmk|ix w1 eng evs Hs Hr Hidle
    |ix w1 eng evs q a Hs Hr Hq Hne Hc|ix w1 eng evs q e0 Hs Hr Hq Hne Hc];
    rewrite Hs in Hst; cbn [fst snd log] in *;
    repeat match goal with x := _ |- _ => subst x end.
  - destruct (Hst Hin Hf Hnc) as [[= <-] Hlast]. done.
  - by destruct (Hst Hin Hf Hnc).
  - apply elem_of_app in Hin as [Hin|Hin]; [by destruct (Hst Hin Hf Hnc)|].
    apply list_elem_of_singleton in Hin as ->. simpl in Hf. rewrite Hmk in Hf.
    simpl in Hf. simplify_eq. split; [done|]. apply last_snoc.
  - rewrite !elem_of_app in Hin. destruct Hin as [Hin|[Hin|Hin]].
    + by destruct (Hst Hin Hf Hnc).
    + rewrite (engine_ready_never_fails _ _ _ _ _ _ Hr Hin) in Hf. done.
    + rewrite (heading_never_fails _ _ _ Hin) in Hf. done.
  - rewrite !elem_of_app in Hin. destruct Hin as [Hin|[Hin|[Hin|[Hin|Hin]]]].
    + by destruct (Hst Hin Hf Hnc).
    + rewrite (engine_ready_never_fails _ _ _ _ _ _ Hr Hin) in Hf. done.
    + rewrite (heading_never_fails _ _ _ Hin) in Hf. done.
    + destruct (asking_failure _ _ _ _ _ Hin Hf) as [_ Hfail]. congruence.
    + apply list_elem_of_singleton in Hin as ->. done.
  - rewrite !elem_of_app in Hin. destruct Hin as [Hin|[Hin|[Hin|Hin]]].
    + by destruct (Hst Hin Hf Hnc).
    + rewrite (engine_ready_never_fails _ _ _ _ _ _ Hr Hin) in Hf. done.
    + rewrite (heading_never_fails _ _ _ Hin) in Hf. done.
    + destruct (asking_failure _ _ _ _ _ Hin Hf) as [-> Hfail].
      split; [congruence|]. unfold asking.
      change [ev_chat_message "user"; ev_markdown q; ev_chat_message "assistant";
              ev_spinner "Thinking..."; ev_chat eng q]
        with ([ev_chat_message "user"; ev_markdown q; ev_chat_message "assistant";
               ev_spinner "Thinking..."] ++ [ev_chat eng q]).
      rewrite !app_assoc. apply last_snoc.
Qed.

(** Without [./storage], on an empty cache and with both clients built, the
    execution ends with the [NameError]. *)
Lemma rebuild_failure_propagates E p s key llm em :
  secrets E !! "GOOGLE_API_KEY" = Some key ->
  GoogleGenAI E gemini key = Ok llm ->
  GoogleGenAIEmbedding E embedding_001 key = Ok em ->
  cache p = None ->
  path_exists E PERSIST_DIR = false ->
  (script E (World p s [])).1 = Raised (NameError "SimpleDirectoryReader").
Proof.
  unfold gemini, embedding_001. intros Hk Hl He Hc Hp.
  rewrite script_split, bind_run, startup_run, (secrets_lookup_key _ _ _ Hk).
  cbv zeta. rewrite configure_models_run, Hl, He. cbv beta iota zeta.
  rewrite load_knowledge_base_run. cbn [proc cache logged log session].
  rewrite Hc, load_index_run, Hp. reflexivity.
Qed.

(** C4, as amended: an instance of [Exception] raised by the construction
    of the generation client or of the embedding client is caught, shown in
    an error display that ends with the text of the exception, and the
    execution stops at line 40; anything raised there that is not an
    instance of [Exception] propagates.  Once the key is there and both
    clients are built, no execution stops or displays an error, and every
    other failure propagates: a call of the storage loader, of
    [as_chat_engine] or of [chat] that fails ends the execution with its
    exception and is the last call made, and the unbound name of the
    rebuild branch ends it with the [NameError]. *)
Theorem client_setup_failures E p s key :
  secrets E !! "GOOGLE_API_KEY" = Some key ->
  let rw := script E (World p s []) in
  (forall e, GoogleGenAI E gemini key = Fail e ->
     if isinstance_Exception e then
       rw = (Stopped stop_client_setup,
             World p s [the_page; ev_GoogleGenAI gemini key; ev_error (setup_message e)])
     else
       rw = (Raised e, World p s [the_page; ev_GoogleGenAI gemini key]))
  /\ (forall llm e,
        GoogleGenAI E gemini key = Ok llm ->
        GoogleGenAIEmbedding E embedding_001 key = Fail e ->
        let p1 := Process (cache p) (Some llm) (Settings_embed_model p) in
        if isinstance_Exception e then
          rw = (Stopped stop_client_setup,
                World p1 s [the_page; ev_GoogleGenAI gemini key;
                            ev_GoogleGenAIEmbedding embedding_001 key;
                            ev_error (setup_message e)])
        else
          rw = (Raised e,
                World p1 s [the_page; ev_GoogleGenAI gemini key;
                            ev_GoogleGenAIEmbedding embedding_001 key]))
  /\ (forall llm em,
        GoogleGenAI E gemini key = Ok llm ->
        GoogleGenAIEmbedding E embedding_001 key = Ok em ->
        cache_ok p ->
        (rw.1 = Returned tt \/ exists e, rw.1 = Raised e)
        /\ count_events is_error (log rw.2) = 0)
  /\ (forall ev e,
        ev ∈ log rw.2 ->
        failure_of E ev = Some e ->
        is_client_construction ev = false ->
        rw.1 = Raised e /\ last (log rw.2) = Some ev)
  /\ (forall llm em,
        GoogleGenAI E gemini key = Ok llm ->
        GoogleGenAIEmbedding E embedding_001 key = Ok em ->
        cache p = None ->
        path_exists E PERSIST_DIR = false ->
        rw.1 = Raised (NameError "SimpleDirectoryReader")).
Proof.
  intros Hk rw.
  destruct (client_setup_outcomes E p s key Hk) as (Hllm & Hemb & Hlater).
  split; [exact Hllm|]. split; [exact Hemb|]. split; [exact Hlater|]. split.
  - intros ev e Hin Hf Hnc. by apply failing_call_propagates.
  - intros llm em Hl He Hc Hp. by apply (rebuild_failure_propagates E p s key llm em).
Qed.

(** C7, counterexample: a session whose first execution stops at the missing
    key has no engine after it and made no creating call; the engine is
    created by the second execution.  And a session whose first creating
    call fails makes a second one at its next execution. *)
Theorem engine_not_created_at_first_run :
  srv_sessions initial_server !! 0 = None
  /\ count_events is_engine_creation
       (run_log (rerun 0 E_no_key initial_server).1) = 0
  /\ engine_of (rerun 0 E_no_key initial_server).2 0 = None
  /\ count_events is_engine_creation
       (run_log (rerun 0 E_ok (rerun 0 E_no_key initial_server).2).1) = 1
  /\ engine_of (rerun 0 E_ok (rerun 0 E_no_key initial_server).2).2 0
     = Some (Engine 5)
  /\ count_events is_engine_creation
       (run_log (rerun 0 E_engine_down initial_server).1) = 1
  /\ engine_of (rerun 0 E_engine_down initial_server).2 0 = None
  /\ count_events is_engine_creation
       (run_log (rerun 0 E_ok (rerun 0 E_engine_down initial_server).2).1) = 1.
Proof. repeat split; vm_compute; reflexivity. Qed.

(** ** The engine over the life of a session *)

(** An execution on a session without an engine. *)
Lemma script_without_engine sid E p s :
  chat_engine s = None ->
  let rw := script E (World p s []) in
  let r := Run sid E rw.1 (log rw.2) in
  match chat_engine (session rw.2) with
  | None => without_engine r
  | Some eng => creates eng r
  end.
Proof.
  intros Hnone. cbv zeta.
  pose proof (script_engine E p s) as Hrun. cbv zeta in Hrun. rewrite Hnone in Hrun.
  destruct (chat_engine (session (script E (World p s [])).2)) as [eng|] eqn:Heng.
  - destruct (Hrun eng eq_refl) as [Hcount Hmade].
    split; [done|]. split; [done|].
    intros eng' q Hin. by apply (chat_events_engine E p s eng eng' q Heng).
  - clear Hrun. unfold without_engine. cbn [run_log run_env].
    pose proof (startup_session E (World p s [])) as Hsess.
    pose proof (startup_count E (World p s []) is_engine_creation) as Hc1.
    pose proof (startup_count E (World p s []) is_chat_call) as Hc2.
    pose proof (fun ix m sp =>
      startup_no_chat E (World p s []) (ev_as_chat_engine ix m sp) eq_refl) as Hst.
    destruct (script_shape E p s) as
      [e0 w1 Hs|site w1 Hs|ix w1 e0 Hs Hk Hmk|ix w1 eng evs Hs Hr Hidle
      |ix w1 eng evs q a Hs Hr Hq Hne Hc|ix w1 eng evs q e0 Hs Hr Hq Hne Hc];
      rewrite Hs in Hsess, Hc1, Hc2, Hst; cbn [fst snd log session chat_engine] in *;
      try discriminate.
    + rewrite Hc1, Hc2 by (by intros []).
      split; [unfold count_events; simpl; lia|]. split; [done|].
      intros ix m sp Hin. by apply Hst, elem_of_nil in Hin.
    + rewrite Hc1, Hc2 by (by intros []).
      split; [unfold count_events; simpl; lia|]. split; [done|].
      intros ix m sp Hin. by apply Hst, elem_of_nil in Hin.
    + rewrite !count_events_app, Hc1, Hc2 by (by intros []).
      split; [unfold count_events; simpl; lia|]. split; [done|].
      intros ix' m sp [Hin|Hin]%elem_of_app; [by apply Hst, elem_of_nil in Hin|].
      apply list_elem_of_singleton in Hin. injection Hin as -> -> ->. eauto.
Qed.

Lemma sid_runs_cons sid r runs :
  sid_runs sid (r :: runs)
  = if Nat.eqb (run_sid r) sid then r :: sid_runs sid runs else sid_runs sid runs.
Proof. reflexivity. Qed.

Lemma serve_reuses reqs sv sid eng :
  engine_of sv sid = Some eng ->
  engine_of (serve reqs sv).2 sid = Some eng
  /\ Forall (reuses eng) (sid_runs sid (serve reqs sv).1).
Proof.
  intros Heng. destruct (serve_engine_kept reqs sv sid eng Heng) as [Hkept Hall].
  split; [done|]. unfold sid_runs.
  induction Hall as [|r runs Hr _ IH]; simpl; [constructor|].
  destruct (Nat.eqb (run_sid r) sid) eqn:Hsid; [|done].
  apply Nat.eqb_eq in Hsid. constructor; [|done]. by apply Hr.
Qed.

(** C7, as amended: in every session the engine is created at most once.
    The executions of the session divide into those that left it without an
    engine (each made no chat call and at most one creating call, which
    failed), then the one execution that created the engine, by one call
    with chat mode ["context"] and the system prompt, and then the
    executions that make no creating call and chat with that engine only.
    As long as the session has no engine, no execution has created one. *)
Theorem chat_engine_created_at_most_once reqs : forall sv sid,
  engine_of sv sid = None ->
  engine_history (engine_of (serve reqs sv).2 sid) (sid_runs sid (serve reqs sv).1).
Proof.
  induction reqs as [|[sid' E] reqs IH]; intros sv sid Hnone.
  - simpl. rewrite Hnone. constructor.
  - cbn [serve fst snd]. rewrite sid_runs_cons. cbn [rerun fst run_sid].
    destruct (Nat.eqb sid' sid) eqn:Hsid.
    + apply Nat.eqb_eq in Hsid as ->.
      rewrite engine_of_session in Hnone.
      pose proof (script_without_engine sid E (srv_process sv) (session_of sv sid) Hnone)
        as Hrun. cbv zeta in Hrun.
      assert (Hnext : engine_of (rerun sid E sv).2 sid
                      = chat_engine (session (script E (World (srv_process sv)
                                                 (session_of sv sid) [])).2)).
      { rewrite engine_of_session, session_of_rerun.
        by destruct (decide (sid = sid)). }
      fold (session_of sv sid).
      destruct (chat_engine (session (script E (World (srv_process sv)
                                        (session_of sv sid) [])).2)) as [eng|].
      * destruct (serve_reuses reqs (rerun sid E sv).2 sid eng Hnext) as [-> Hafter].
        eexists [], _, _. split; [reflexivity|]. split; [constructor|]. done.
      * specialize (IH (rerun sid E sv).2 sid Hnext).
        destruct (engine_of (serve reqs (rerun sid E sv).2).2 sid) as [eng|].
        -- destruct IH as (before & r & after & -> & Hb & Hr & Ha).
           eexists (_ :: before), r, after. split; [reflexivity|].
           split; [by constructor|]. done.
        -- by constructor.
    + apply IH. rewrite engine_of_session, session_of_rerun.
      apply Nat.eqb_neq in Hsid. destruct (decide (sid' = sid)); [done|].
      by rewrite <- engine_of_session.
Qed.

(** ** The theorems at work on the sample environments *)

Lemma credential_check_witness :
  script E_no_key fresh_world =
  (Stopped stop_no_api_key,
   World initial_process new_session [the_page; ev_error no_key_message]).
Proof.
  pose proof (credential_check E_no_key initial_process new_session) as H.
  cbv zeta in H.
  change (secrets_lookup E_no_key "GOOGLE_API_KEY") with (@Ok (option string) None) in H.
  exact (proj1 H).
Defined.

Lemma load_index_never_returns_None_witness :
  cache_ok (proc fresh_world)
  /\ (cache_resource "Loading knowledge base... 🧠" (load_index E_ok) fresh_world).1
     <> Returned None.
Proof.
  assert (Hok : cache_ok (proc fresh_world)) by (unfold cache_ok; simpl; congruence).
  split; [exact Hok|].
  exact (proj1 (proj2 load_index_never_returns_None) E_ok fresh_world Hok).
Defined.

Lemma client_setup_failures_witness :
  secrets E_bad_key !! "GOOGLE_API_KEY" = Some "AIza-demo"
  /\ script E_bad_key fresh_world =
     (Stopped stop_client_setup,
      World initial_process new_session
            [the_page; ev_GoogleGenAI gemini "AIza-demo";
             ev_error (setup_message (ValueError "API key not valid"))]).
Proof.
  assert (Hk : secrets E_bad_key !! "GOOGLE_API_KEY" = Some "AIza-demo") by reflexivity.
  split; [exact Hk|].
  exact (proj1 (client_setup_failures E_bad_key initial_process new_session
                  "AIza-demo" Hk)
               (ValueError "API key not valid") eq_refl).
Defined.

Lemma load_index_memoized_witness :
  cache_resource "Loading knowledge base... 🧠" (load_index E_ok) fresh_world
  = (Returned (Some (Index 4)),
     World (Process (Some (Some (Index 4))) None None) new_session
           [loading; ev_path_exists PERSIST_DIR; ev_from_defaults PERSIST_DIR;
            ev_load_index_from_storage (Storage 3)])
  /\ cache_resource "Loading knowledge base... 🧠" (load_index E_no_storage)
       (World (Process (Some (Some (Index 4))) (Some (LLM 1)) None) new_session [])
     = (Returned (Some (Index 4)),
        World (Process (Some (Some (Index 4))) (Some (LLM 1)) None) new_session []).
Proof.
  assert (H1 : cache_resource "Loading knowledge base... 🧠" (load_index E_ok) fresh_world
          = (Returned (Some (Index 4)),
             World (Process (Some (Some (Index 4))) None None) new_session
                   [loading; ev_path_exists PERSIST_DIR; ev_from_defaults PERSIST_DIR;
                    ev_load_index_from_storage (Storage 3)])) by reflexivity.
  split; [exact H1|].
  exact (proj1 (load_index_memoized E_ok _ _ _ _ H1) E_no_storage
               (World (Process (Some (Some (Index 4))) (Some (LLM 1)) None) new_session [])
               eq_refl).
Defined.

Lemma chat_failure_propagates_witness :
  ev_chat (Engine 5) "Any vegan dish?" ∈ log (script E_chat_down fresh_world).2
  /\ chat E_chat_down (Engine 5) "Any vegan dish?"
     = Fail (ValueError "503 Service Unavailable")
  /\ (script E_chat_down fresh_world).1 = Raised (ValueError "503 Service Unavailable").
Proof.
  assert (Hin : ev_chat (Engine 5) "Any vegan dish?"
                ∈ log (script E_chat_down fresh_world).2).
  { apply list_elem_of_In. vm_compute. do 17 right. left. reflexivity. }
  split; [exact Hin|]. split; [reflexivity|].
  exact (proj1 (chat_failure_propagates E_chat_down initial_process new_session
                  (Engine 5) "Any vegan dish?" (ValueError "503 Service Unavailable")
                  Hin eq_refl)).
Defined.

Lemma failed_turn_keeps_user_message_witness :
  ev_chat (Engine 5) "Any vegan dish?" ∈ log (script E_chat_down fresh_world).2
  /\ messages (session (script E_chat_down fresh_world).2)
     = Some [greeting; Message "user" "Any vegan dish?"].
Proof.
  assert (Hin : ev_chat (Engine 5) "Any vegan dish?"
                ∈ log (script E_chat_down fresh_world).2).
  { apply list_elem_of_In. vm_compute. do 17 right. left. reflexivity. }
  split; [exact Hin|].
  exact (proj1 (proj2 (failed_turn_keeps_user_message E_chat_down initial_process
                         new_session (Engine 5) "Any vegan dish?"
                         (ValueError "503 Service Unavailable") Hin eq_refl))).
Defined.

Lemma sample_requests_chat_succeeds :
  Forall (fun req => req.1 = 0 -> chat_succeeds req.2) sample_requests.
Proof.
  repeat constructor; simpl; intros Hsid eng q;
    first [discriminate Hsid | eexists; reflexivity].
Defined.

Lemma transcript_after_completed_turns_witness :
  Forall (fun req => req.1 = 0 -> chat_succeeds req.2) sample_requests
  /\ transcript_of (serve sample_requests initial_server).2 0
     = Some [greeting;
             Message "user" "What's good?"; Message "assistant" "Try the suya.";
             Message "user" "What's good?"; Message "assistant" "Try the suya."]
  /\ completed_turns 0 (serve sample_requests initial_server).1 = 2
  /\ length [greeting;
             Message "user" "What's good?"; Message "assistant" "Try the suya.";
             Message "user" "What's good?"; Message "assistant" "Try the suya."]
     = 1 + 2 * completed_turns 0 (serve sample_requests initial_server).1.
Proof.
  assert (Hl : transcript_of (serve sample_requests initial_server).2 0
     = Some [greeting;
             Message "user" "What's good?"; Message "assistant" "Try the suya.";
             Message "user" "What's good?"; Message "assistant" "Try the suya."])
    by (vm_compute; reflexivity).
  split; [exact sample_requests_chat_succeeds|]. split; [exact Hl|].
  split; [vm_compute; reflexivity|].
  exact (proj1 (proj2 (transcript_after_completed_turns sample_requests 0 _
                         sample_requests_chat_succeeds Hl))).
Defined.

Lemma chat_engine_created_at_most_once_witness :
  engine_of initial_server 0 = None
  /\ engine_of (serve late_start initial_server).2 0 = Some (Engine 5)
  /\ exists before r after,
       sid_runs 0 (serve late_start initial_server).1 = before ++ r :: after
       /\ Forall without_engine before
       /\ creates (Engine 5) r
       /\ Forall (reuses (Engine 5)) after.
Proof.
  assert (Hnone : engine_of initial_server 0 = None) by reflexivity.
  assert (Heng : engine_of (serve late_start initial_server).2 0 = Some (Engine 5))
    by (vm_compute; reflexivity).
  pose proof (chat_engine_created_at_most_once late_start initial_server 0 Hnone) as H.
  rewrite Heng in H.
  split; [exact Hnone|]. split; [exact Heng|exact H].
Defined.

Lemma transcript_append_only_witness :
  transcript_of (serve [(0, E_ok)] initial_server).2 0
  = Some [greeting; Message "user" "What's good?"; Message "assistant" "Try the suya."]
  /\ exists l',
       transcript_of (serve [(0, E_chat_down); (0, E_ok)]
                            (serve [(0, E_ok)] initial_server).2).2 0 = Some l'
       /\ [greeting; Message "user" "What's good?"; Message "assistant" "Try the suya."]
          `prefix_of` l'.
Proof.
  assert (Hl : transcript_of (serve [(0, E_ok)] initial_server).2 0
    = Some [greeting; Message "user" "What's good?"; Message "assistant" "Try the suya."])
    by (vm_compute; reflexivity).
  split; [exact Hl|].
  destruct (proj2 (proj2 transcript_append_only) [(0, E_chat_down); (0, E_ok)]
              (serve [(0, E_ok)] initial_server).2 0 _ Hl) as (l' & Hl' & Hpre & _).
  exists l'. split; [exact Hl'|exact Hpre].
Defined.


(** *** The page configuration comes first *)

Lemma startup_page E w :
  exists evs, log (startup E w).2 = log w ++ the_page :: evs
              /\ count_events is_page_config evs = 0.
Proof.
  startup_cases; rewrite <- ?app_assoc; simpl;
    eexists; (split; [reflexivity|reflexivity]).
Qed.

(** X1: [st.set_page_config] is the first call of every execution, and it is
    made once. *)
Theorem page_configuration_first E p s :
  exists evs, log (script E (World p s [])).2 = the_page :: evs
              /\ count_events is_page_config evs = 0.
Proof.
  destruct (conversation_events E p s) as (evs2 & -> & Hconv).
  destruct (startup_page E (World p s [])) as (evs1 & -> & H1).
  exists (evs1 ++ evs2). split; [reflexivity|].
  rewrite count_events_app, H1.
  rewrite (count_events_none is_conversation_event is_page_config evs2); auto.
  by intros [].
Qed.

(** *** The rebuild branch never gets anywhere *)

(** X2: no execution reads the menu file or the reviews, builds an index
    from documents, or persists one. *)
Theorem never_builds_an_index E p s :
  count_events is_build_call (log (script E (World p s [])).2) = 0.
Proof.
  destruct (conversation_events E p s) as (evs2 & -> & Hconv).
  destruct (startup_log E (World p s [])) as (evs1 & -> & H1).
  simpl. rewrite count_events_app.
  rewrite (count_events_none is_startup_event is_build_call evs1),
          (count_events_none is_conversation_event is_build_call evs2); auto;
    by intros [].
Qed.

(** *** Errors are displayed exactly when the execution stops *)

Lemma script_result_startup E p s :
  match (startup E (World p s [])).1 with
  | Returned _ => forall site, (script E (World p s [])).1 <> Stopped site
  | Raised e => (script E (World p s [])).1 = Raised e
  | Stopped site => (script E (World p s [])).1 = Stopped site
  end.
Proof.
  destruct (script_shape E p s) as
    [e w1 Hs|site w1 Hs|ix w1 e Hs|ix w1 eng evs Hs Hr|ix w1 eng evs q a Hs Hr|ix w1 eng evs q e Hs Hr];
    rewrite Hs; simpl; done.
Qed.

Lemma startup_error_count E w :
  cache_ok (proc w) ->
  count_events is_error (log (startup E w).2) =
  count_events is_error (log w)
  + match (startup E w).1 with Stopped _ => 1 | _ => 0 end.
Proof.
  unfold cache_ok.
  startup_cases; simpl; intros; try congruence;
    rewrite <- ?app_assoc, ?count_events_app; unfold count_events; simpl; lia.
Qed.

(** X3: on a process whose cache was filled by [load_index], an execution
    displays one error when it ends by [st.stop()], and none otherwise. *)
Theorem error_displayed_iff_stopped E p s :
  cache_ok p ->
  let rw := script E (World p s []) in
  count_events is_error (log rw.2) =
  match rw.1 with Stopped _ => 1 | _ => 0 end.
Proof.
  intros Hok. cbv zeta. rewrite conversation_no_error.
  rewrite (startup_error_count E (World p s []) Hok). simpl.
  pose proof (script_result_startup E p s) as H.
  destruct ((startup E (World p s [])).1) as [ix|e|site].
  - destruct ((script E (World p s [])).1) as [u|e|site]; [done..|].
    by destruct (H site).
  - by rewrite H.
  - by rewrite H.
Qed.

(** *** Where exceptions come from *)

Lemma startup_raised E w e :
  (startup E w).1 = Raised e -> raised_by E e.
Proof.
  unfold gemini, embedding_001.
  startup_cases; simpl; intros [= <-];
    eauto using by_unbound_name, by_from_defaults, by_load_index_from_storage,
                by_secrets, secrets_lookup_Fail.
  - eapply by_GoogleGenAIEmbedding; eauto.
  - eapply by_GoogleGenAI; eauto.
Qed.

(** X4: an exception that ends an execution is one raised by the read of
    the secret store (line 22), the [NameError] of line 71, or one a
    collaborator raised: a client constructor (then it is not an instance
    of [Exception]), the storage loader, [as_chat_engine] or [chat].  The
    accesses behind their guards raise nothing of their own: no [KeyError]
    from [st.secrets["GOOGLE_API_KEY"]], no [AttributeError] from
    [st.session_state]. *)
Theorem exceptions_come_from_collaborators E p s e :
  (script E (World p s [])).1 = Raised e -> raised_by E e.
Proof.
  destruct (script_shape E p s) as
    [e0 w1 Hs|site w1 Hs|ix w1 e0 Hs Hk Hmk|ix w1 eng evs Hs Hr
    |ix w1 eng evs q a Hs Hr|ix w1 eng evs q e0 Hs Hr Hq Hne Hc];
    simpl; intros [= <-].
  - apply (startup_raised E (World p s [])). by rewrite Hs.
  - by eapply by_as_chat_engine.
  - by eapply by_chat.
Qed.

(** *** What fills the cache *)

Lemma startup_cache_provenance E w :
  cache (proc w) = None ->
  cache (proc (startup E w).2) = None
  \/ exists sc ix,
       path_exists E PERSIST_DIR = true
       /\ from_defaults E PERSIST_DIR = Ok sc
       /\ load_index_from_storage E sc = Ok ix
       /\ cache (proc (startup E w).2) = Some (Some ix).
Proof.
  intros Hc. startup_cases; simpl; try congruence; eauto 10.
Qed.

(** X5: an execution on an empty cache leaves it empty or filled with the
    index that [load_index_from_storage] returned for [./storage]. *)
Theorem cache_holds_the_stored_index E p s :
  cache p = None ->
  let rw := script E (World p s []) in
  cache (proc rw.2) = None
  \/ exists sc ix,
       path_exists E PERSIST_DIR = true
       /\ from_defaults E PERSIST_DIR = Ok sc
       /\ load_index_from_storage E sc = Ok ix
       /\ cache (proc rw.2) = Some (Some ix).
Proof.
  intros Hc. cbv zeta. rewrite script_proc.
  by apply (startup_cache_provenance E (World p s [])).
Qed.

(** *** Without [./storage] *)

Lemma startup_without_storage E w :
  path_exists E PERSIST_DIR = false ->
  cache (proc w) = None ->
  (forall ix, (startup E w).1 <> Returned ix)
  /\ cache (proc (startup E w).2) = None.
Proof.
  intros Hp Hc. startup_cases; simpl; split; congruence.
Qed.

Lemma script_without_storage E p s :
  path_exists E PERSIST_DIR = false ->
  cache p = None ->
  let rw := script E (World p s []) in
  (forall u, rw.1 <> Returned u) /\ session rw.2 = s /\ cache (proc rw.2) = None.
Proof.
  intros Hp Hc. cbv zeta.
  destruct (startup_without_storage E (World p s []) Hp Hc) as [Hnr Hcache].
  pose proof (startup_session E (World p s [])) as Hsess.
  rewrite script_proc.
  destruct (script_shape E p s) as
    [e0 w1 Hs|site w1 Hs|ix w1 e0 Hs|ix w1 eng evs Hs
    |ix w1 eng evs q a Hs|ix w1 eng evs q e0 Hs];
    rewrite Hs in Hnr, Hsess, Hcache |- *; simpl in *;
    try (by destruct (Hnr ix)); done.
Qed.

(** X6: as long as [./storage] is missing and the cache is empty, no
    execution runs to its end, the cache stays empty, and no session state
    changes. *)
Theorem unusable_without_storage reqs : forall sv,
  cache (srv_process sv) = None ->
  Forall (fun req => path_exists req.2 PERSIST_DIR = false) reqs ->
  cache (srv_process (serve reqs sv).2) = None
  /\ Forall (fun r => forall u, run_result r <> Returned u) (serve reqs sv).1
  /\ forall sid, session_of (serve reqs sv).2 sid = session_of sv sid.
Proof.
  induction reqs as [|[sid' E] reqs IH]; intros sv Hc Hreqs.
  - repeat split; [done|constructor].
  - apply Forall_cons in Hreqs as [HE Hreqs]. simpl in HE.
    destruct (script_without_storage E (srv_process sv) (session_of sv sid') HE Hc)
      as (Hnr & Hsess & Hcache).
    cbn [serve fst snd].
    destruct (IH (rerun sid' E sv).2 Hcache Hreqs) as (H1 & H2 & H3).
    split; [done|]. split; [by constructor|].
    intros sid. rewrite H3, session_of_rerun.
    destruct (decide (sid' = sid)) as [->|]; [|done]. exact Hsess.
Qed.

(** *** The session is touched only by an execution that gets to the page *)

Lemma heading_title l : count_events is_title (heading l) = 1.
Proof.
  unfold heading. rewrite !count_events_app.
  rewrite (count_events_none
             (fun ev => negb (is_title ev)) is_title (rendering l)).
  - reflexivity.
  - intros ev. by destruct (is_title ev).
  - by apply forallb_rendering.
Qed.

(** X7: an execution that ends before the title is displayed leaves
    [st.session_state] as it found it; one that displays the title does so
    once and leaves a chat engine and a transcript in the session. *)
Theorem session_touched_with_the_title E p s :
  let rw := script E (World p s []) in
  match count_events is_title (log rw.2) with
  | 0 => session rw.2 = s
  | _ => count_events is_title (log rw.2) = 1
         /\ is_Some (chat_engine (session rw.2))
         /\ is_Some (messages (session rw.2))
  end.
Proof.
  cbv zeta.
  pose proof (startup_session E (World p s [])) as Hsess.
  pose proof (startup_count E (World p s []) is_title) as Hc0.
  assert (Hevs : forall ix eng evs, engine_ready E ix s eng evs ->
                                    count_events is_title evs = 0)
    by (by intros ix eng evs []).
  destruct (script_shape E p s) as
    [e0 w1 Hs|site w1 Hs|ix w1 e0 Hs|ix w1 eng evs Hs Hr
    |ix w1 eng evs q a Hs Hr|ix w1 eng evs q e0 Hs Hr];
    rewrite Hs in Hsess, Hc0; cbn [fst snd log session] in *;
    rewrite ?count_events_app, ?Hc0, ?heading_title, ?(Hevs _ _ _ Hr) by (by intros []);
    simpl; eauto.
Qed.

(** *** An execution without a query *)

(** X8: on a session that has its engine and its transcript, an execution
    without a query (none submitted, or an empty one) makes no chat call
    and leaves the session state as it was, however it ends. *)
Theorem idle_execution_keeps_session E p s eng l :
  chat_engine s = Some eng ->
  messages s = Some l ->
  truthy (chat_input E the_prompt) = false ->
  let rw := script E (World p s []) in
  session rw.2 = s /\ count_events is_chat_call (log rw.2) = 0.
Proof.
  intros Heng Hl Hidle. cbv zeta.
  pose proof (startup_session E (World p s [])) as Hsess.
  pose proof (startup_count E (World p s []) is_chat_call) as Hc0.
  destruct (script_shape E p s) as
    [e0 w1 Hs|site w1 Hs|ix w1 e0 Hs Hk|ix w1 eng0 evs Hs Hr
    |ix w1 eng0 evs q a Hs Hr Hq Hne|ix w1 eng0 evs q e0 Hs Hr Hq Hne];
    rewrite Hs in Hsess, Hc0; cbn [fst snd log session] in *.
  - split; [done|]. by rewrite Hc0 by (by intros []).
  - split; [done|]. by rewrite Hc0 by (by intros []).
  - congruence.
  - destruct Hr as [eng1 Hk|eng1 Hk _]; [|congruence].
    repeat match goal with x := _ |- _ => subst x end.
    rewrite Hl. simpl. split.
    + destruct s as [c m]; simpl in *. congruence.
    + rewrite !count_events_app, Hc0 by (by intros []).
      rewrite (count_events_none _ is_chat_call _
                 (fun ev => proj1 (negb_true_iff _)) (heading_no_chat _)).
      reflexivity.
  - rewrite Hq in Hidle. simpl in Hidle.
    apply negb_false_iff, String.eqb_eq in Hidle. done.
  - rewrite Hq in Hidle. simpl in Hidle.
    apply negb_false_iff, String.eqb_eq in Hidle. done.
Qed.

(** *** A completed turn *)

(** X9: an execution that receives a non-empty query and runs to its end
    has made one chat call, with the query as submitted, on the engine of
    the session; the answer is the last thing it displays, and the
    transcript has grown by the query and that answer, in this order. *)
Theorem completed_turn_records_the_exchange E p s q u :
  chat_input E the_prompt = Some q ->
  q <> "" ->
  let rw := script E (World p s []) in
  rw.1 = Returned u ->
  exists eng response,
    chat E eng q = Ok response
    /\ chat_engine (session rw.2) = Some eng
    /\ count_events is_chat_call (log rw.2) = 1
    /\ ev_chat eng q ∈ log rw.2
    /\ last (log rw.2) = Some (ev_markdown response)
    /\ messages (session rw.2)
       = Some (default [greeting] (messages s)
               ++ [Message "user" q; Message "assistant" response]).
Proof.
  intros Hq Hne. cbv zeta.
  pose proof (startup_count E (World p s []) is_chat_call) as Hc0.
  destruct (script_shape E p s) as
    [e0 w1 Hs|site w1 Hs|ix w1 e0 Hs Hk|ix w1 eng evs Hs Hr Hidle
    |ix w1 eng evs q0 a Hs Hr Hq0 Hne0 Hc|ix w1 eng evs q0 e0 Hs Hr Hq0 Hne0 Hc];
    rewrite Hs in Hc0; cbn [fst snd log session] in *; intros Hret; try done.
  - rewrite Hq in Hidle. simpl in Hidle.
    apply negb_false_iff, String.eqb_eq in Hidle. done.
  - assert (q0 = q) as -> by congruence.
    repeat match goal with x := _ |- _ => subst x end.
    exists eng, a. split; [done|]. split; [done|]. split; [|split; [|split]].
    + rewrite !count_events_app, Hc0 by (by intros []).
      rewrite (engine_ready_count E ix s eng evs is_chat_call (fun _ _ _ => eq_refl) Hr).
      rewrite (count_events_none _ is_chat_call _
                 (fun ev => proj1 (negb_true_iff _)) (heading_no_chat _)).
      reflexivity.
    + rewrite !elem_of_app. do 3 right. left. unfold asking.
      rewrite !elem_of_cons. auto 10.
    + rewrite !app_assoc. apply last_snoc.
    + done.
Qed.

(** *** One index for all sessions *)

Lemma engine_created_on_cached_index E p s ix m sp :
  ev_as_chat_engine ix m sp ∈ log (script E (World p s [])).2 ->
  cache (proc (script E (World p s [])).2) = Some (Some ix).
Proof.
  rewrite script_proc.
  pose proof (startup_no_chat E (World p s []) (ev_as_chat_engine ix m sp) eq_refl) as Hst.
  assert (Hready : forall ix0 eng evs, engine_ready E ix0 s eng evs ->
                     ev_as_chat_engine ix m sp ∈ evs -> ix = ix0).
  { intros ix0 eng evs [eng' _|eng' _ _] Hin; [by apply elem_of_nil in Hin|].
    apply list_elem_of_singleton in Hin. congruence. }
  assert (Hhead : forall l, ev_as_chat_engine ix m sp ∉ heading l).
  { intros l Hin.
    assert (Hf : forallb (fun ev => negb (is_engine_creation ev)) (heading l) = true)
      by (unfold heading; by rewrite !forallb_app, forallb_rendering).
    by apply (classified_elem _ _ _ Hf) in Hin. }
  assert (Hask : forall eng q, ev_as_chat_engine ix m sp ∉ asking eng q).
  { intros eng q Hin.
    by apply (classified_elem (fun ev => negb (is_engine_creation ev)) _
                              (asking eng q) eq_refl) in Hin. }
  destruct (script_shape E p s) as
    [e0 w1 Hs|site w1 Hs|ix0 w1 e0 Hs|ix0 w1 eng evs Hs Hr
    |ix0 w1 eng evs q a Hs Hr|ix0 w1 eng evs q e0 Hs Hr];
    rewrite Hs in Hst |- *; cbn [fst snd log proc] in *;
    rewrite ?elem_of_app; intros Hin.
  - by apply Hst, elem_of_nil in Hin.
  - by apply Hst, elem_of_nil in Hin.
  - destruct Hin as [Hin|Hin]; [by apply Hst, elem_of_nil in Hin|].
    apply list_elem_of_singleton in Hin. injection Hin as -> _ _.
    by destruct (startup_returned E _ _ _ Hs) as (?&?&?&?&?&?&?&?).
  - destruct Hin as [Hin|[Hin|Hin]];
      [by apply Hst, elem_of_nil in Hin| |by apply Hhead in Hin].
    rewrite (Hready _ _ _ Hr Hin).
    by destruct (startup_returned E _ _ _ Hs) as (?&?&?&?&?&?&?&?).
  - destruct Hin as [Hin|[Hin|[Hin|[Hin|Hin]]]];
      [by apply Hst, elem_of_nil in Hin| |by apply Hhead in Hin
      |by apply Hask in Hin|by apply list_elem_of_singleton in Hin].
    rewrite (Hready _ _ _ Hr Hin).
    by destruct (startup_returned E _ _ _ Hs) as (?&?&?&?&?&?&?&?).
  - destruct Hin as [Hin|[Hin|[Hin|Hin]]];
      [by apply Hst, elem_of_nil in Hin| |by apply Hhead in Hin|by apply Hask in Hin].
    rewrite (Hready _ _ _ Hr Hin).
    by destruct (startup_returned E _ _ _ Hs) as (?&?&?&?&?&?&?&?).
Qed.

Lemma serve_engines_on_cached_index reqs : forall sv r ix m sp,
  r ∈ (serve reqs sv).1 ->
  ev_as_chat_engine ix m sp ∈ run_log r ->
  cache (srv_process (serve reqs sv).2) = Some (Some ix).
Proof.
  induction reqs as [|[sid E] reqs IH]; intros sv r ix m sp Hr Hin.
  - by apply elem_of_nil in Hr.
  - cbn [serve fst snd] in *. apply elem_of_cons in Hr as [->|Hr].
    + cbn [rerun fst run_log] in Hin.
      apply engine_created_on_cached_index in Hin.
      by apply (serve_cached reqs (rerun sid E sv).2).
    + by apply (IH _ r ix m sp).
Qed.

(** X10: whatever is served, all chat engines, of all sessions, are created
    on one index, the one in the cache. *)
Theorem sessions_share_one_index reqs sv r1 r2 ix1 ix2 m1 m2 sp1 sp2 :
  r1 ∈ (serve reqs sv).1 ->
  r2 ∈ (serve reqs sv).1 ->
  ev_as_chat_engine ix1 m1 sp1 ∈ run_log r1 ->
  ev_as_chat_engine ix2 m2 sp2 ∈ run_log r2 ->
  ix1 = ix2 /\ cache (srv_process (serve reqs sv).2) = Some (Some ix1).
Proof.
  intros Hr1 Hr2 H1 H2.
  pose proof (serve_engines_on_cached_index reqs sv r1 ix1 m1 sp1 Hr1 H1) as Hc1.
  pose proof (serve_engines_on_cached_index reqs sv r2 ix2 m2 sp2 Hr2 H2) as Hc2.
  split; [congruence|done].
Qed.

(** *** The page shows the transcript *)

Lemma displayed_in_skip c l1 l2 :
  forallb (fun ev => match ev with
                     | ev_chat_message _ | ev_markdown _ => false
                     | _ => true
                     end) l1 = true ->
  displayed_in c (l1 ++ l2) = displayed_in c l2.
Proof.
  induction l1 as [|ev l1 IH]; [done|]. simpl.
  intros [Hev Hl1]%andb_prop. destruct ev; try done; by apply IH.
Qed.

Lemma displayed_in_rendering c l rest :
  (forall c1 c2, displayed_in c1 rest = displayed_in c2 rest) ->
  displayed_in c (rendering l ++ rest) = l ++ displayed_in c rest.
Proof.
  intros Hrest. revert c. induction l as [|[r b] l IH]; intros c; [done|].
  unfold rendering in *. simpl. f_equal. rewrite IH. f_equal. apply Hrest.
Qed.

(** X11: an execution that displays the title displays, as chat messages,
    exactly the transcript it leaves in the session. *)
Theorem page_shows_the_transcript E p s t :
  let rw := script E (World p s []) in
  ev_title t ∈ log rw.2 ->
  messages (session rw.2) = Some (displayed (log rw.2)).
Proof.
  cbv zeta.
  pose proof (startup_no_chat E (World p s []) (ev_title t) eq_refl) as Hst.
  destruct (startup_log E (World p s [])) as (evs0 & Hlog0 & Hevs0).
  simpl in Hlog0.
  assert (Hskip0 : forall rest, displayed (evs0 ++ rest) = displayed rest).
  { intros rest. apply displayed_in_skip.
    eapply forallb_weaken; [|exact Hevs0]. by intros []. }
  assert (Hskip1 : forall ix eng evs rest, engine_ready E ix s eng evs ->
                     displayed (evs ++ rest) = displayed rest)
    by (by intros ix eng evs rest []).
  destruct (script_shape E p s) as
    [e0 w1 Hs|site w1 Hs|ix0 w1 e0 Hs|ix0 w1 eng evs Hs Hr
    |ix0 w1 eng evs q a Hs Hr|ix0 w1 eng evs q e0 Hs Hr];
    rewrite Hs in Hst, Hlog0; destruct w1 as [p1 s1 lg1];
    cbn [fst snd log session messages] in *; subst lg1;
    repeat match goal with x := _ |- _ => subst x end;
    rewrite ?elem_of_app; intros Hin.
  - by apply Hst, elem_of_nil in Hin.
  - by apply Hst, elem_of_nil in Hin.
  - destruct Hin as [Hin|Hin]; [by apply Hst, elem_of_nil in Hin|].
    by apply list_elem_of_singleton in Hin.
  - rewrite Hskip0, (Hskip1 _ _ _ _ Hr). unfold heading, displayed.
    rewrite displayed_in_skip by reflexivity.
    rewrite displayed_in_rendering by done. simpl. by rewrite app_nil_r.
  - rewrite Hskip0, (Hskip1 _ _ _ _ Hr). unfold heading, displayed.
    rewrite <- !app_assoc. rewrite displayed_in_skip by reflexivity.
    rewrite displayed_in_rendering by done. reflexivity.
  - rewrite Hskip0, (Hskip1 _ _ _ _ Hr). unfold heading, displayed.
    rewrite <- !app_assoc. rewrite displayed_in_skip by reflexivity.
    rewrite displayed_in_rendering by done. reflexivity.
Qed.

(** *** The index is loaded after the clients are installed *)

Lemma count_events_zero_elem (Q : event -> bool) l ev :
  count_events Q l = 0 -> ev ∈ l -> Q ev = false.
Proof.
  unfold count_events. induction l as [|x l IH]; simpl.
  - intros _ Hin. by apply elem_of_nil in Hin.
  - intros Hc [->|Hin]%elem_of_cons.
    + by destruct (Q x).
    + destruct (Q x); [done|]. by apply IH.
Qed.

Lemma startup_index_io E p s :
  let w := (startup E (World p s [])).2 in
  count_events is_index_io (log w) = 0
  \/ exists key llm em evs,
       secrets E !! "GOOGLE_API_KEY" = Some key
       /\ GoogleGenAI E gemini key = Ok llm
       /\ GoogleGenAIEmbedding E embedding_001 key = Ok em
       /\ cache p = None
       /\ Settings_llm (proc w) = Some llm
       /\ Settings_embed_model (proc w) = Some em
       /\ log w = the_page :: ev_GoogleGenAI gemini key
                    :: ev_GoogleGenAIEmbedding embedding_001 key :: evs.
Proof.
  cbv zeta. unfold gemini, embedding_001, the_page.
  startup_cases; simpl;
    first [ left; reflexivity
          | right; do 4 eexists; repeat split; try eassumption; reflexivity ].
Qed.

(** X12: a call of the index loader is made only on an empty cache and
    only after both clients were constructed with the key: they are the
    second and third call of the execution and are installed in
    [Settings]. *)
Theorem index_loaded_after_clients E p s ev :
  let rw := script E (World p s []) in
  ev ∈ log rw.2 ->
  is_index_io ev = true ->
  exists key llm em evs,
    secrets E !! "GOOGLE_API_KEY" = Some key
    /\ GoogleGenAI E gemini key = Ok llm
    /\ GoogleGenAIEmbedding E embedding_001 key = Ok em
    /\ cache p = None
    /\ Settings_llm (proc rw.2) = Some llm
    /\ Settings_embed_model (proc rw.2) = Some em
    /\ log rw.2 = the_page :: ev_GoogleGenAI gemini key
                    :: ev_GoogleGenAIEmbedding embedding_001 key :: evs.
Proof.
  cbv zeta. rewrite script_proc.
  destruct (conversation_events E p s) as (evs2 & -> & Hconv).
  intros [Hin|Hin]%elem_of_app Hio.
  - destruct (startup_index_io E p s) as
      [Hnone|(key & llm & em & evs & Hk & Hl & He & Hc & Hsl & Hse & Hlog)].
    + rewrite (count_events_zero_elem _ _ _ Hnone Hin) in Hio. done.
    + exists key, llm, em, (evs ++ evs2). rewrite Hlog. done.
  - apply (classified_elem _ _ _ Hconv) in Hin. by destruct ev.
Qed.

(** *** The clients are built at every execution *)

Lemma startup_clients E w key :
  secrets E !! "GOOGLE_API_KEY" = Some key ->
  let w' := (startup E w).2 in
  count_events is_GoogleGenAI (log w') = count_events is_GoogleGenAI (log w) + 1
  /\ match GoogleGenAI E gemini key with
     | Ok llm =>
         count_events is_GoogleGenAIEmbedding (log w')
         = count_events is_GoogleGenAIEmbedding (log w) + 1
         /\ Settings_llm (proc w') = Some llm
         /\ Settings_embed_model (proc w')
            = match GoogleGenAIEmbedding E embedding_001 key with
              | Ok em => Some em
              | Fail _ => Settings_embed_model (proc w)
              end
     | Fail _ =>
         count_events is_GoogleGenAIEmbedding (log w')
         = count_events is_GoogleGenAIEmbedding (log w)
         /\ Settings_llm (proc w') = Settings_llm (proc w)
         /\ Settings_embed_model (proc w') = Settings_embed_model (proc w)
     end.
Proof.
  intros Hk. cbv zeta. unfold gemini, embedding_001.
  startup_cases; cbn [proc Settings_llm Settings_embed_model log];
    rewrite <- ?app_assoc, ?count_events_app; unfold count_events; simpl;
    repeat split; try congruence; lia.
Qed.

(** X13: with the key in place, every execution constructs the generation
    client anew, whatever the cache holds, and the embedding client after
    it; [Settings.llm] is replaced as soon as the first succeeds, also when
    the second fails and leaves [Settings.embed_model] as it was. *)
Theorem clients_built_at_every_execution E p s key :
  secrets E !! "GOOGLE_API_KEY" = Some key ->
  let rw := script E (World p s []) in
  count_events is_GoogleGenAI (log rw.2) = 1
  /\ match GoogleGenAI E gemini key with
     | Ok llm =>
         count_events is_GoogleGenAIEmbedding (log rw.2) = 1
         /\ Settings_llm (proc rw.2) = Some llm
         /\ Settings_embed_model (proc rw.2)
            = match GoogleGenAIEmbedding E embedding_001 key with
              | Ok em => Some em
              | Fail _ => Settings_embed_model p
              end
     | Fail _ =>
         count_events is_GoogleGenAIEmbedding (log rw.2) = 0
         /\ Settings_llm (proc rw.2) = Settings_llm p
         /\ Settings_embed_model (proc rw.2) = Settings_embed_model p
     end.
Proof.
  intros Hk. cbv zeta. rewrite script_proc.
  destruct (conversation_events E p s) as (evs2 & -> & Hconv).
  rewrite !count_events_app.
  rewrite (count_events_none is_conversation_event is_GoogleGenAI evs2),
          (count_events_none is_conversation_event is_GoogleGenAIEmbedding evs2);
    auto; try (by intros []).
  destruct (startup_clients E (World p s []) key Hk) as [H1 H2].
  cbv zeta in H2. simpl in H1, H2. rewrite H1, !Nat.add_0_r.
  split; [done|].
  destruct (GoogleGenAI E gemini key); destruct H2 as (-> & H3 & H4); done.
Qed.

(** *** The transcript is the history of the exchanges *)

Lemma grown_by_trans o xs1 o1 xs2 o2 :
  grown_by o xs1 o1 -> grown_by o1 xs2 o2 -> grown_by o (xs1 ++ xs2) o2.
Proof.
  intros [[-> ->]| ->] [[-> ->]| ->]; simpl.
  - by left.
  - by right.
  - right. by rewrite app_nil_r.
  - right. by rewrite app_assoc.
Qed.

Lemma script_grown_by sid E p s :
  chat_succeeds E ->
  let rw := script E (World p s []) in
  grown_by (messages s) (exchange (Run sid E rw.1 (log rw.2)))
           (messages (session rw.2)).
Proof.
  intros Hchat. cbv zeta. unfold exchange, completed_turn, answer_shown.
  cbn [run_env run_result run_log].
  pose proof (startup_session E (World p s [])) as Hsess.
  destruct (script_shape E p s) as
    [e0 w1 Hs|site w1 Hs|ix w1 e0 Hs|ix w1 eng evs Hs Hr Hidle
    |ix w1 eng evs q a Hs Hr Hq Hne Hc|ix w1 eng evs q e0 Hs Hr Hq Hne Hc];
    rewrite Hs in Hsess; cbn [fst snd log session messages completes] in *;
    repeat match goal with x := _ |- _ => subst x end.
  - left. by rewrite Hsess.
  - left. by rewrite Hsess.
  - by left.
  - rewrite Hidle. right. by rewrite app_nil_r.
  - rewrite !app_assoc, last_snoc, Hq. simpl.
    replace (negb (String.eqb q "")) with true
      by (symmetry; by apply negb_true_iff, String.eqb_neq).
    by right.
  - destruct (Hchat eng q) as [a Ha]. congruence.
Qed.

Lemma serve_grown_by reqs : forall sv sid,
  Forall (fun req => req.1 = sid -> chat_succeeds req.2) reqs ->
  grown_by (transcript_of sv sid) (exchanges sid (serve reqs sv).1)
           (transcript_of (serve reqs sv).2 sid).
Proof.
  induction reqs as [|[sid' E] reqs IH]; intros sv sid Hok.
  - by left.
  - apply Forall_cons in Hok as [HE Hok]. simpl in HE.
    cbn [serve fst snd exchanges].
    eapply grown_by_trans; [|by apply IH].
    rewrite !transcript_of_session, session_of_rerun.
    cbn [rerun fst run_sid].
    destruct (decide (sid' = sid)) as [->|Hne].
    + rewrite Nat.eqb_refl. fold (session_of sv sid).
      by apply script_grown_by, HE.
    + apply Nat.eqb_neq in Hne. rewrite Hne. by left.
Qed.

(** X14: when every chat call of a session succeeds, its transcript is the
    greeting followed by the exchanges of its completed turns, oldest
    first: each query as submitted and the answer displayed for it. *)
Theorem transcript_is_the_history reqs sid l :
  Forall (fun req => req.1 = sid -> chat_succeeds req.2) reqs ->
  transcript_of (serve reqs initial_server).2 sid = Some l ->
  l = greeting :: exchanges sid (serve reqs initial_server).1.
Proof.
  intros Hok Hl.
  assert (H0 : transcript_of initial_server sid = None)
    by (unfold transcript_of; simpl; by rewrite lookup_empty).
  destruct (serve_grown_by reqs initial_server sid Hok) as [[H _]|H];
    rewrite Hl, H0 in H; simpl in H; congruence.
Qed.

(** ** Further properties on the sample environments *)

Ltac find_event := apply list_elem_of_In; vm_compute;
                   repeat (first [left; reflexivity | right]).

Lemma error_displayed_iff_stopped_witness :
  cache_ok initial_process
  /\ count_events is_error (log (script E_bad_key fresh_world).2) = 1.
Proof.
  assert (Hok : cache_ok initial_process) by (unfold cache_ok; simpl; congruence).
  split; [exact Hok|].
  exact (error_displayed_iff_stopped E_bad_key initial_process new_session Hok).
Defined.

Lemma exceptions_come_from_collaborators_witness :
  (script E_chat_down fresh_world).1 = Raised (ValueError "503 Service Unavailable")
  /\ raised_by E_chat_down (ValueError "503 Service Unavailable").
Proof.
  assert (H : (script E_chat_down fresh_world).1
              = Raised (ValueError "503 Service Unavailable"))
    by (vm_compute; reflexivity).
  split; [exact H|].
  exact (exceptions_come_from_collaborators E_chat_down initial_process
           new_session _ H).
Defined.

Lemma cache_holds_the_stored_index_witness :
  cache initial_process = None
  /\ (cache (proc (script E_ok fresh_world).2) = None
      \/ exists sc ix,
           path_exists E_ok PERSIST_DIR = true
           /\ from_defaults E_ok PERSIST_DIR = Ok sc
           /\ load_index_from_storage E_ok sc = Ok ix
           /\ cache (proc (script E_ok fresh_world).2) = Some (Some ix)).
Proof.
  split; [reflexivity|].
  exact (cache_holds_the_stored_index E_ok initial_process new_session eq_refl).
Defined.

Lemma unusable_without_storage_witness :
  cache (srv_process initial_server) = None
  /\ Forall (fun req => path_exists req.2 PERSIST_DIR = false) two_visitors_no_storage
  /\ cache (srv_process (serve two_visitors_no_storage initial_server).2) = None
  /\ session_of (serve two_visitors_no_storage initial_server).2 0
     = session_of initial_server 0.
Proof.
  assert (Hreqs : Forall (fun req => path_exists req.2 PERSIST_DIR = false)
                         two_visitors_no_storage)
    by (repeat constructor).
  destruct (unusable_without_storage two_visitors_no_storage initial_server
              eq_refl Hreqs) as (H1 & _ & H3).
  split; [reflexivity|]. split; [exact Hreqs|]. split; [exact H1|exact (H3 0)].
Defined.

Lemma idle_execution_keeps_session_witness :
  truthy (chat_input E_idle the_prompt) = false
  /\ session (script E_idle (World initial_process session_after_one_turn [])).2
     = session_after_one_turn.
Proof.
  split; [reflexivity|].
  exact (proj1 (idle_execution_keeps_session E_idle initial_process
                  session_after_one_turn _ _ eq_refl eq_refl eq_refl)).
Defined.

Lemma completed_turn_records_the_exchange_witness :
  chat_input E_ok the_prompt = Some "What's good?"
  /\ (script E_ok fresh_world).1 = Returned tt
  /\ exists eng response,
       chat E_ok eng "What's good?" = Ok response
       /\ messages (session (script E_ok fresh_world).2)
          = Some ([greeting] ++ [Message "user" "What's good?";
                                 Message "assistant" response]).
Proof.
  assert (Hret : (script E_ok fresh_world).1 = Returned tt) by (vm_compute; reflexivity).
  assert (Hne : "What's good?" <> "") by discriminate.
  split; [reflexivity|]. split; [exact Hret|].
  destruct (completed_turn_records_the_exchange E_ok initial_process new_session
              "What's good?" tt eq_refl Hne Hret)
    as (eng & response & H1 & _ & _ & _ & _ & H6).
  exists eng, response. split; [exact H1|exact H6].
Defined.

Lemma sessions_share_one_index_witness :
  ev_as_chat_engine (Index 4) "context" SYSTEM_PROMPT
    ∈ run_log (rerun 0 E_ok initial_server).1
  /\ ev_as_chat_engine (Index 4) "context" SYSTEM_PROMPT
       ∈ run_log (rerun 1 E_ok (rerun 0 E_ok initial_server).2).1
  /\ cache (srv_process (serve two_visitors initial_server).2)
     = Some (Some (Index 4)).
Proof.
  assert (H1 : ev_as_chat_engine (Index 4) "context" SYSTEM_PROMPT
                 ∈ run_log (rerun 0 E_ok initial_server).1) by find_event.
  assert (H2 : ev_as_chat_engine (Index 4) "context" SYSTEM_PROMPT
                 ∈ run_log (rerun 1 E_ok (rerun 0 E_ok initial_server).2).1)
    by find_event.
  split; [exact H1|]. split; [exact H2|].
  refine (proj2 (sessions_share_one_index two_visitors initial_server
                   (rerun 0 E_ok initial_server).1
                   (rerun 1 E_ok (rerun 0 E_ok initial_server).2).1
                   _ _ _ _ _ _ _ _ H1 H2)).
  - apply list_elem_of_here.
  - apply list_elem_of_further, list_elem_of_here.
Defined.

Lemma page_shows_the_transcript_witness :
  ev_title "🍽️ RestaurantBot" ∈ log (script E_ok fresh_world).2
  /\ messages (session (script E_ok fresh_world).2)
     = Some (displayed (log (script E_ok fresh_world).2)).
Proof.
  assert (H : ev_title "🍽️ RestaurantBot" ∈ log (script E_ok fresh_world).2)
    by find_event.
  split; [exact H|].
  exact (page_shows_the_transcript E_ok initial_process new_session _ H).
Defined.

Lemma index_loaded_after_clients_witness :
  ev_path_exists PERSIST_DIR ∈ log (script E_ok fresh_world).2
  /\ exists evs,
       log (script E_ok fresh_world).2
       = the_page :: ev_GoogleGenAI gemini "AIza-demo"
           :: ev_GoogleGenAIEmbedding embedding_001 "AIza-demo" :: evs.
Proof.
  assert (H : ev_path_exists PERSIST_DIR ∈ log (script E_ok fresh_world).2)
    by find_event.
  split; [exact H|].
  destruct (index_loaded_after_clients E_ok initial_process new_session _ H eq_refl)
    as (key & llm & em & evs & Hk & _ & _ & _ & _ & _ & Hlog).
  assert (key = "AIza-demo") as -> by (vm_compute in Hk; congruence).
  exists evs. exact Hlog.
Defined.

Lemma clients_built_at_every_execution_witness :
  secrets E_ok !! "GOOGLE_API_KEY" = Some "AIza-demo"
  /\ count_events is_GoogleGenAI
       (log (script E_ok (World (Process (Some (Some (Index 4))) (Some (LLM 8)) None)
                                session_after_one_turn [])).2) = 1.
Proof.
  assert (Hk : secrets E_ok !! "GOOGLE_API_KEY" = Some "AIza-demo") by reflexivity.
  split; [exact Hk|].
  exact (proj1 (clients_built_at_every_execution E_ok
                  (Process (Some (Some (Index 4))) (Some (LLM 8)) None)
                  session_after_one_turn "AIza-demo" Hk)).
Defined.

Lemma transcript_is_the_history_witness :
  Forall (fun req => req.1 = 0 -> chat_succeeds req.2) sample_requests
  /\ transcript_of (serve sample_requests initial_server).2 0
     = Some (greeting :: exchanges 0 (serve sample_requests initial_server).1).
Proof.
  assert (Hok : Forall (fun req => req.1 = 0 -> chat_succeeds req.2) sample_requests).
  { repeat constructor; simpl; intros Hsid eng q;
      first [discriminate Hsid | eexists; reflexivity]. }
  split; [exact Hok|].
  assert (Hl : transcript_of (serve sample_requests initial_server).2 0
     = Some [greeting;
             Message "user" "What's good?"; Message "assistant" "Try the suya.";
             Message "user" "What's good?"; Message "assistant" "Try the suya."])
    by (vm_compute; reflexivity).
  rewrite Hl.
  exact (f_equal Some (transcript_is_the_history sample_requests 0 _ Hok Hl)).
Defined.
